(** * deb2arch: the conversion engine, embedded and verified

  A shallow embedding of [deb2arch/utils.py] and [deb2arch/converter.py].

  Python [str] values are modelled by [string], read as sequences of code
  points below 256 (the Latin-1 block).  On that block the Unicode-aware
  methods of [str] ([lower], [isdigit], [isspace]) are tabulated exactly;
  the regular expressions of the source use explicit ASCII classes or
  [\d], which on this block is [0-9].  Ordering of strings is by code
  point, as Python compares them. *)

From Stdlib Require Import ZArith NArith QArith Ascii String List Bool Lia.
From stdpp Require Import gmap strings list fin_maps sorting.

Local Open Scope string_scope.
Local Open Scope list_scope.

(** ** Python [str] primitives *)

Module PyStr.

Definition code (c : ascii) : N := N_of_ascii c.

Definition between (lo hi : N) (c : ascii) : bool :=
  ((lo <=? code c) && (code c <=? hi))%N.

Definition newline : ascii := "010"%char.

(** [0-9], the meaning of [\d] on code points below 256. *)
Definition is_09 (c : ascii) : bool := between 48 57 c.
(** [a-z] and [A-Z]. *)
Definition is_az (c : ascii) : bool := between 97 122 c.
Definition is_AZ (c : ascii) : bool := between 65 90 c.

(** [str.isdigit] for one character: the decimal digits and the
    superscripts U+00B2, U+00B3, U+00B9. *)
Definition isdigit (c : ascii) : bool :=
  is_09 c || (code c =? 178)%N || (code c =? 179)%N || (code c =? 185)%N.

(** [str.isspace] for one character: TAB..CR, FS..US, SPACE, NEL, NBSP. *)
Definition isspace (c : ascii) : bool :=
  between 9 13 c || between 28 32 c || (code c =? 133)%N || (code c =? 160)%N.

(** Characters with a lower-case mapping: [A-Z], U+00C0..U+00D6 and
    U+00D8..U+00DE; each maps to the code point 32 above it. *)
Definition has_lower (c : ascii) : bool :=
  is_AZ c || between 192 214 c || between 216 222 c.

Definition lower_char (c : ascii) : ascii :=
  if has_lower c then ascii_of_N (code c + 32) else c.

Fixpoint map (f : ascii -> ascii) (s : string) : string :=
  match s with
  | "" => ""
  | String c r => String (f c) (map f r)
  end.

(** [s.lower()] *)
Definition lower (s : string) : string := map lower_char s.

Definition is_empty (s : string) : bool :=
  match s with "" => true | _ => false end.

Fixpoint forallb (p : ascii -> bool) (s : string) : bool :=
  match s with
  | "" => true
  | String c r => p c && forallb p r
  end.

Fixpoint existsb (p : ascii -> bool) (s : string) : bool :=
  match s with
  | "" => false
  | String c r => p c || existsb p r
  end.

(** [s.replace(a, b)] for one-character [a] and [b]. *)
Definition replace (a b : ascii) (s : string) : string :=
  map (fun c => if Ascii.eqb c a then b else c) s.

(** [re.sub("[class]", b, s)]: every character of the class becomes [b]. *)
Definition sub_class (p : ascii -> bool) (b : ascii) (s : string) : string :=
  map (fun c => if p c then b else c) s.

(** Does [s] start with the character [a]? *)
Definition head_is (a : ascii) (s : string) : bool :=
  match s with String d _ => Ascii.eqb d a | "" => false end.

(** [re.sub("c+", "c", s)]: every maximal run of [a] becomes one [a]. *)
Fixpoint squeeze (a : ascii) (s : string) : string :=
  match s with
  | "" => ""
  | String c r =>
      let r' := squeeze a r in
      if Ascii.eqb c a && head_is a r' then r' else String c r'
  end.

(** [s.lstrip(chars)] with the set [chars] given as a predicate. *)
Fixpoint lstrip (p : ascii -> bool) (s : string) : string :=
  match s with
  | "" => ""
  | String c r => if p c then lstrip p r else s
  end.

(** [s.rstrip(chars)] *)
Fixpoint rstrip (p : ascii -> bool) (s : string) : string :=
  match s with
  | "" => ""
  | String c r =>
      let r' := rstrip p r in
      if is_empty r' && p c then "" else String c r'
  end.

(** [s.strip(chars)] *)
Definition strip (p : ascii -> bool) (s : string) : string :=
  rstrip p (lstrip p s).

(** The prefix of [s] before the first character satisfying [p], and the
    rest after that character when there is one. *)
Fixpoint break (p : ascii -> bool) (s : string) : string * option string :=
  match s with
  | "" => ("", None)
  | String c r =>
      if p c then ("", Some r)
      else let '(a, b) := break p r in (String c a, b)
  end.

(** [s.split(sep, 1)] for a one-character separator. *)
Definition split1 (sep : ascii) (s : string) : list string :=
  match break (Ascii.eqb sep) s with
  | (a, Some b) => [a; b]
  | (a, None) => [a]
  end.

(** [s.startswith(t)] *)
Definition startswith (s t : string) : bool := String.prefix t s.

(** [t in s] *)
Fixpoint contains (s t : string) : bool :=
  String.prefix t s ||
  match s with
  | "" => false
  | String _ r => contains r t
  end.

(** [s.endswith(t)] *)
Fixpoint endswith (s t : string) : bool :=
  String.eqb s t ||
  match s with
  | "" => false
  | String _ r => endswith r t
  end.

(** [sep.join(l)] *)
Fixpoint join (sep : string) (l : list string) : string :=
  match l with
  | [] => ""
  | [x] => x
  | x :: r => x +:+ sep +:+ join sep r
  end.

(** [s[:n]] and [s[:-n]] for [0 < n]. *)
Fixpoint take (n : nat) (s : string) : string :=
  match n, s with
  | S n', String c r => String c (take n' r)
  | _, _ => ""
  end.

Definition drop_last (n : nat) (s : string) : string :=
  take (String.length s - n) s.

(** [s[n:]] *)
Fixpoint skip (n : nat) (s : string) : string :=
match n, s with
| S n', String _ r => skip n' r
| _, _ => s
end.

(** [s.split(sep)] for a one-character separator, given as a predicate. *)
Fixpoint split_on (p : ascii -> bool) (s : string) : list string :=
match s with
| "" => [""]
| String c r =>
    if p c then "" :: split_on p r
    else match split_on p r with
         | x :: l => String c x :: l
         | [] => [String c ""]
         end
end.

(** [re.split("[class]+", s)]: the pieces between maximal runs of the class;
    only the first and the last piece can be empty. *)
Fixpoint split_runs_from (p : ascii -> bool) (in_run : bool) (s : string) : list string :=
match s with
| "" => [""]
| String c r =>
    if p c then
      if in_run then split_runs_from p true r else "" :: split_runs_from p true r
    else match split_runs_from p false r with
         | x :: l => String c x :: l
         | [] => [String c ""]
         end
end.

Definition split_runs (p : ascii -> bool) (s : string) : list string :=
split_runs_from p false s.

(** [s.splitlines()]: the line boundaries below code point 256 are LF, CR,
    CR LF, VT, FF, FS, GS, RS and NEL; the boundaries are dropped. *)
Definition is_linebreak (c : ascii) : bool :=
between 10 13 c || between 28 30 c || (code c =? 133)%N.

Fixpoint splitlines_from (after_cr : bool) (s : string) : list string :=
match s with
| "" => []
| String c r =>
    if after_cr && (code c =? 10)%N then splitlines_from false r
    else if is_linebreak c then "" :: splitlines_from (code c =? 13)%N r
    else match splitlines_from false r with
         | x :: l => String c x :: l
         | [] => [String c ""]
         end
end.

Definition splitlines (s : string) : list string := splitlines_from false s.

(** A regular expression that is a sequence of character classes, each
    taken once ([One]) or one or more times ([Many1]). *)
Inductive re_atom :=
| One (p : ascii -> bool)
| Many1 (p : ascii -> bool).

(** Does some prefix of the string match the expression? *)
Fixpoint re_match (re : list re_atom) : string -> bool :=
match re with
| [] => fun _ => true
| One p :: re' =>
    fun s => match s with
             | String c r => p c && re_match re' r
             | "" => false
             end
| Many1 p :: re' =>
    fix many (s : string) : bool :=
      match s with
      | String c r => p c && (re_match re' r || many r)
      | "" => false
      end
end.

(** [re.search(re, s) is not None] *)
Fixpoint re_search (re : list re_atom) (s : string) : bool :=
re_match re s ||
match s with
| "" => false
| String _ r => re_search re r
end.

(** [x or y] on strings: the empty string is falsy. *)
Definition or_else (x y : string) : string := if is_empty x then y else x.

(** No two adjacent occurrences of [a]. *)
Fixpoint no_run (a : ascii) (s : string) : bool :=
  match s with
  | "" => true
  | String c r => negb (Ascii.eqb c a && head_is a r) && no_run a r
  end.

(** A string that does not start with a stripped character. *)
Definition head_kept (p : ascii -> bool) (s : string) : bool :=
  match s with String c _ => negb (p c) | "" => true end.

End PyStr.

(** ** utils.py *)

(** The class [^a-zA-Z0-9.+_] of [sanitize_pkgver], complemented. *)
Definition pkgver_char (c : ascii) : bool :=
PyStr.is_az c || PyStr.is_AZ c || PyStr.is_09 c ||
Ascii.eqb c "." || Ascii.eqb c "+" || Ascii.eqb c "_".

Definition sanitize_pkgver (version : string) : string :=
if PyStr.is_empty version then "0" else
let no_epoch := List.last (PyStr.split1 ":" version) "" in
let cleaned := PyStr.replace "~" "." no_epoch in
let cleaned := PyStr.replace "-" "." cleaned in
let cleaned := PyStr.sub_class (fun c => negb (pkgver_char c)) "." cleaned in
let cleaned := PyStr.squeeze "." cleaned in
let cleaned := PyStr.strip (Ascii.eqb ".") cleaned in
PyStr.or_else cleaned "0".


(** [re.sub("[^a-zA-Z0-9@._+-]", ...)]: the class of [sanitize_package_name],
    complemented. *)
Definition pkgname_char (c : ascii) : bool :=
  PyStr.is_az c || PyStr.is_AZ c || PyStr.is_09 c ||
  Ascii.eqb c "@" || Ascii.eqb c "." || Ascii.eqb c "_" ||
  Ascii.eqb c "+" || Ascii.eqb c "-".

Definition sanitize_package_name (name : string) : string :=
  let cleaned :=
    PyStr.lower
      (PyStr.strip (fun c => Ascii.eqb c "-" || Ascii.eqb c "." || Ascii.eqb c "_")
         (PyStr.sub_class (fun c => negb (pkgname_char c)) "-" name)) in
  PyStr.or_else cleaned "unknown-package".

(** [parse_debian_depends]: does a [")"] close the group on this line? *)
Fixpoint closes_paren (s : string) : bool :=
  match s with
  | "" => false
  | String c r =>
      if Ascii.eqb c ")" then true
      else if Ascii.eqb c PyStr.newline then false
      else closes_paren r
  end.

(** [re.sub("\s*\(.*?\)", "", s)]: a parenthesised group that closes before
    the end of its line is removed with the white space before it. *)
Fixpoint sub_paren_groups (skipping : bool) (pending : string) (s : string) : string :=
  match s with
  | "" => pending
  | String c r =>
      if skipping then sub_paren_groups (negb (Ascii.eqb c ")")) "" r
      else if Ascii.eqb c "(" && closes_paren r then sub_paren_groups true "" r
      else if PyStr.isspace c then sub_paren_groups false (pending +:+ String c "") r
      else pending +:+ String c (sub_paren_groups false "" r)
  end.

Definition parse_debian_depends (depends_field : string) : list string :=
  if PyStr.is_empty depends_field then []
  else
    List.flat_map
      (fun raw_item =>
         let item := PyStr.strip PyStr.isspace raw_item in
         if PyStr.is_empty item then []
         else
           let preferred_alt :=
             PyStr.strip PyStr.isspace (List.nth 0 (PyStr.split1 "|" item) "") in
           let no_version :=
             PyStr.strip PyStr.isspace (sub_paren_groups false "" preferred_alt) in
           let no_arch :=
             PyStr.strip PyStr.isspace (List.nth 0 (PyStr.split1 ":" no_version) "") in
           if PyStr.is_empty no_arch then [] else [no_arch])
      (PyStr.split_on (Ascii.eqb ",") depends_field).

(** ** Paths ([pathlib.PurePosixPath])

    A path is its anchor and its parts; parsing drops empty and ["."]
    components and keeps [".."].  The implementation-defined root ["//"] is
    read as ["/"]. *)

Record Path := { anchored : bool; parts : list string }.

Definition Path_of (s : string) : Path :=
  {| anchored := PyStr.startswith s "/";
     parts := List.filter (fun p => negb (PyStr.is_empty p || String.eqb p "."))
                (PyStr.split_on (Ascii.eqb "/") s) |}.

(** [p.name] *)
Definition Path_name (p : Path) : string := List.last (parts p) "".

(** [p / s] *)
Definition Path_join (p : Path) (s : string) : Path :=
  let q := Path_of s in
  if anchored q then q
  else {| anchored := anchored p; parts := parts p ++ parts q |}.

(** The index [i] of the last dot of a name when [0 < i < len(name) - 1],
    which is where [suffix] and [stem] cut. *)
Fixpoint rfind_dot (s : string) : option nat :=
  match s with
  | "" => None
  | String c r =>
      match rfind_dot r with
      | Some i => Some (S i)
      | None => if Ascii.eqb c "." then Some 0%nat else None
      end
  end.

Definition suffix_cut (name : string) : option nat :=
  match rfind_dot name with
  | Some i => if (0 <? i)%nat && (i <? String.length name - 1)%nat then Some i else None
  | None => None
  end.

(** [PurePath(name).suffix] *)
Definition suffix_of (name : string) : string :=
  match suffix_cut name with
  | Some i => PyStr.skip i name
  | None => ""
  end.

(** [PurePath(name).stem] *)
Definition stem_of (name : string) : string :=
  match suffix_cut name with
  | Some i => PyStr.take i name
  | None => name
  end.

Definition Path_suffix (p : Path) : string := suffix_of (Path_name p).
Definition Path_stem (p : Path) : string := stem_of (Path_name p).

(** Components of an absolute, normalised path, as [Path.resolve] returns
    it on a tree without symbolic links: [".."] removes the last component
    and stays at the root. *)
Definition resolve_parts (start : list string) (ps : list string) : list string :=
  foldl (fun acc p => if String.eqb p ".." then removelast acc else acc ++ [p]) start ps.

Definition resolve (cwd : list string) (p : Path) : list string :=
  resolve_parts (if anchored p then [] else cwd) (parts p).

(** [str(p)] for a resolved path. *)
Definition str_resolved (comps : list string) : string :=
  "/" +:+ PyStr.join "/" comps.

(** ** converter.py: tables and records *)

Definition SUPPORTED_TARBALL_SUFFIXES : list string := [".tar.gz"; ".tgz"].

Definition DEBIAN_TO_ARCH_DEP_MAP_items : list (string * string) :=
  [ ("adduser", "shadow");
    ("ca-certificates", "ca-certificates");
    ("gcc-12-base", "gcc-libs");
    ("libasound2", "alsa-lib");
    ("libatk1.0-0", "atk");
    ("libatk-bridge2.0-0", "at-spi2-core");
    ("libbz2-1.0", "bzip2");
    ("libc6", "glibc");
    ("libcurl4", "curl");
    ("libdbus-1-3", "dbus");
    ("libexpat1", "expat");
    ("libfontconfig1", "fontconfig");
    ("libfreetype6", "freetype2");
    ("libgcc-s1", "gcc-libs");
    ("libgdk-pixbuf-2.0-0", "gdk-pixbuf2");
    ("libglib2.0-0", "glib2");
    ("libgtk-3-0", "gtk3");
    ("libnss3", "nss");
    ("libnspr4", "nspr");
    ("libnotify4", "libnotify");
    ("libpango-1.0-0", "pango");
    ("libpulse0", "libpulse");
    ("libssl3", "openssl");
    ("libstdc++6", "gcc-libs");
    ("libuuid1", "util-linux-libs");
    ("libx11-6", "libx11");
    ("libxcomposite1", "libxcomposite");
    ("libxcursor1", "libxcursor");
    ("libxdamage1", "libxdamage");
    ("libxext6", "libxext");
    ("libxfixes3", "libxfixes");
    ("libxi6", "libxi");
    ("libxrandr2", "libxrandr");
    ("libxrender1", "libxrender");
    ("libxtst6", "libxtst");
    ("python3", "python");
    ("python3-gi", "python-gobject");
    ("xdg-utils", "xdg-utils");
    ("zlib1g", "zlib") ].

Definition DEBIAN_TO_ARCH_DEP_MAP : gmap string string :=
  list_to_map DEBIAN_TO_ARCH_DEP_MAP_items.

Definition PASSTHROUGH_DEPENDENCIES_items : list string :=
  [ "bash"; "coreutils"; "curl"; "dbus"; "file"; "findutils"; "glib2"; "grep";
    "gzip"; "libx11"; "openssl"; "sed"; "tar"; "util-linux"; "which"; "xz";
    "zstd" ].

Definition PASSTHROUGH_DEPENDENCIES : gset string :=
  list_to_set PASSTHROUGH_DEPENDENCIES_items.

Record PackageMetadata := {
  package : string;
  version : string;
  architecture : string;
  description : string;
  maintainer : string;
  depends_raw : string;
  dependencies : list string;
  mapped_dependencies : list string;
  unmapped_dependencies : list string;
  source_path : Path;
  source_format : string
}.

Record ConversionResult := {
  metadata : PackageMetadata;
  package_path : string;
  temp_dir : string;
  used_debtap : bool
}.

(** [sorted(set(l))] on strings: the elements of the set, ordered by code
    point. *)
Definition sorted_set (l : list string) : list string :=
  merge_sort String.le (elements (list_to_set l : gset string)).

(** ** Dependency mapping *)

(** [re.sub("\d+$", "", s)]: the digits that end the string, or that stand
    just before a newline that ends it, are removed. *)
Definition sub_digits_at_end (s : string) : string :=
  if PyStr.endswith s (String PyStr.newline "")
  then PyStr.rstrip PyStr.is_09 (PyStr.drop_last 1 s) +:+ String PyStr.newline ""
  else PyStr.rstrip PyStr.is_09 s.

(** How the loop body of [_map_dependencies] treats one name. *)
Inductive dep_class :=
| ExactHit (target : string)
| PassthroughHit (target : string)
| SonameHit (target : string)
| Unmapped.

Definition classify_dependency (dep : string) : dep_class :=
  let key := PyStr.lower dep in
  match DEBIAN_TO_ARCH_DEP_MAP !! key with
  | Some target => ExactHit target
  | None =>
      if decide (key ∈ PASSTHROUGH_DEPENDENCIES) then PassthroughHit key
      else
        let soname_guess :=
          PyStr.rstrip (Ascii.eqb "-") (sub_digits_at_end key) in
        if decide (soname_guess ∈ PASSTHROUGH_DEPENDENCIES)
        then SonameHit soname_guess
        else Unmapped
  end.

Definition class_target (c : dep_class) : option string :=
  match c with
  | ExactHit t | PassthroughHit t | SonameHit t => Some t
  | Unmapped => None
  end.

(** One iteration of the loop: append to [mapped] or to [unmapped]. *)
Definition map_dependencies_step (acc : list string * list string) (dep : string)
  : list string * list string :=
  let '(mapped, unmapped) := acc in
  match class_target (classify_dependency dep) with
  | Some target => (mapped ++ [target], unmapped)
  | None => (mapped, unmapped ++ [dep])
  end.

Definition _map_dependencies (dependencies : list string) : list string * list string :=
  let '(mapped, unmapped) := foldl map_dependencies_step ([], []) dependencies in
  (sorted_set mapped, sorted_set unmapped).

(** ** Tarball metadata inference *)

Definition _strip_archive_suffix (filename : string) : string :=
  let lowered := PyStr.lower filename in
  match List.find (PyStr.endswith lowered) SUPPORTED_TARBALL_SUFFIXES with
  | Some suffix => PyStr.drop_last (String.length suffix) filename
  | None => Path_stem (Path_of filename)
  end.

(** [next((idx for idx, token in enumerate(tokens) if ...), None)] *)
Fixpoint first_index {A : Type} (p : A -> bool) (l : list A) : option nat :=
  match l with
  | [] => None
  | x :: r => if p x then Some 0%nat else option_map S (first_index p r)
  end.

Definition guess_architecture (lower_name : string) : string :=
  if List.existsb (PyStr.contains lower_name) ["x86_64"; "amd64"; "x64"] then "x86_64"
  else if List.existsb (PyStr.contains lower_name) ["aarch64"; "arm64"] then "aarch64"
  else if List.existsb (PyStr.contains lower_name) ["i386"; "i686"] then "i686"
  else "any".

(** [[token for token in re.split("[-_]+", base_name) if token]] *)
Definition tarball_tokens (base_name : string) : list string :=
  List.filter (fun token => negb (PyStr.is_empty token))
    (PyStr.split_runs (fun c => Ascii.eqb c "-" || Ascii.eqb c "_") base_name).

(** [any(char.isdigit() for char in token)] *)
Definition has_digit (token : string) : bool := PyStr.existsb PyStr.isdigit token.

Definition _parse_tarball_metadata (source_path : Path) : PackageMetadata :=
  let base_name := _strip_archive_suffix (Path_name source_path) in
  let tokens := tarball_tokens base_name in
  let version_index := first_index has_digit tokens in
  let '(package_name, version_text) :=
    match version_index with
    | None => (sanitize_package_name base_name, "1.0.0")
    | Some idx =>
        (sanitize_package_name
           (PyStr.or_else (PyStr.join "-" (List.firstn idx tokens)) base_name),
         sanitize_pkgver
           (PyStr.or_else (PyStr.join "-" (List.skipn idx tokens)) "1.0.0"))
    end in
  {| package := package_name;
     version := version_text;
     architecture := guess_architecture (PyStr.lower base_name);
     description := "Repackaged tarball application from " +:+ Path_name source_path;
     maintainer := "Unknown";
     depends_raw := "";
     dependencies := [];
     mapped_dependencies := [];
     unmapped_dependencies := [];
     source_path := source_path;
     source_format := "tarball" |}.

(** ** Exceptions and results

    The classes of [utils.py] that the engine raises, the operating-system
    errors of the file operations, and any other [Exception]. *)

Inductive exn :=
| ConversionError (msg : string)
| CommandExecutionError (msg : string)
| OSError (kind : string)
| OtherException (msg : string).

Inductive result (A : Type) :=
| Ok (a : A)
| Raise (e : exn).
Arguments Ok {A} a.
Arguments Raise {A} e.

Definition is_raise {A : Type} (r : result A) : bool :=
  match r with Raise _ => true | Ok _ => false end.

(** [str(path)] *)
Definition Path_str (p : Path) : string :=
  match anchored p, parts p with
  | false, [] => "."
  | true, ps => "/" +:+ PyStr.join "/" ps
  | false, ps => PyStr.join "/" ps
  end.

(** ** Input validation *)

(** What the file system answers about the input path: [exists()],
    [is_file()], the bytes of the file and the verdict of
    [tarfile.is_tarfile]. *)
Record InputFile := {
  input_path : Path;
  path_exists : bool;
  path_is_file : bool;
  file_bytes : string;
  is_tarfile : bool
}.

Definition _is_deb_file (input_path : Path) : bool :=
  String.eqb (PyStr.lower (Path_suffix input_path)) ".deb".

Definition _is_tarball_file (input_path : Path) : bool :=
  let lowered := PyStr.lower (Path_name input_path) in
  List.existsb (PyStr.endswith lowered) SUPPORTED_TARBALL_SUFFIXES.

Definition _detect_input_format (input_path : Path) : result string :=
  if _is_deb_file input_path then Ok "deb"
  else if _is_tarball_file input_path then Ok "tarball"
  else Raise (ConversionError "Supported files are: .deb, .tar.gz, .tgz").

(** The signature [b"!<arch>\n"]. *)
Definition ar_magic : string := "!<arch>" +:+ String PyStr.newline "".

Definition validate_input_file (f : InputFile) : result string :=
  if negb (path_exists f) || negb (path_is_file f) then
    Raise (ConversionError ("File does not exist: " +:+ Path_str (input_path f)))
  else
    match _detect_input_format (input_path f) with
    | Raise e => Raise e
    | Ok input_format =>
        if String.eqb input_format "deb" then
          let magic := PyStr.take 8 (file_bytes f) in
          if negb (String.eqb magic ar_magic) then
            Raise (ConversionError "Invalid .deb archive (missing ar header)")
          else Ok input_format
        else if negb (is_tarfile f) then
          Raise (ConversionError "Invalid tarball archive")
        else Ok input_format
    end.

(** ** Tar members ([tarfile.TarInfo])

    A member has a name, a type flag, mode bits and, for a regular file, its
    bytes.  The predicates are those of [tarfile]. *)

Record TarInfo := {
  name : string;
  type : ascii;
  mode : Z;
  content : string
}.

Definition REGTYPE : ascii := "0"%char.
Definition AREGTYPE : ascii := "000"%char.
Definition LNKTYPE : ascii := "1"%char.
Definition SYMTYPE : ascii := "2"%char.
Definition CHRTYPE : ascii := "3"%char.
Definition BLKTYPE : ascii := "4"%char.
Definition DIRTYPE : ascii := "5"%char.
Definition FIFOTYPE : ascii := "6"%char.
Definition CONTTYPE : ascii := "7"%char.
Definition GNUTYPE_SPARSE : ascii := "S"%char.

Definition isreg (m : TarInfo) : bool :=
  List.existsb (Ascii.eqb (type m)) [REGTYPE; AREGTYPE; CONTTYPE; GNUTYPE_SPARSE].
Definition isfile (m : TarInfo) : bool := isreg m.
Definition isdir (m : TarInfo) : bool := Ascii.eqb (type m) DIRTYPE.
Definition issym (m : TarInfo) : bool := Ascii.eqb (type m) SYMTYPE.
Definition islnk (m : TarInfo) : bool := Ascii.eqb (type m) LNKTYPE.
Definition ischr (m : TarInfo) : bool := Ascii.eqb (type m) CHRTYPE.
Definition isblk (m : TarInfo) : bool := Ascii.eqb (type m) BLKTYPE.
Definition isfifo (m : TarInfo) : bool := Ascii.eqb (type m) FIFOTYPE.
Definition isdev (m : TarInfo) : bool := ischr m || isblk m || isfifo m.

(** [tar.extractfile(member)]: a reader for a regular file, [None] for a
    member that is neither a regular file nor a link. *)
Definition extractfile (m : TarInfo) : option string :=
  if isreg m then Some (content m) else None.

Definition _normalize_archive_member_name (member_name : string) : string :=
  let cleaned := PyStr.lstrip (Ascii.eqb "/") member_name in
  if PyStr.startswith cleaned "./" then PyStr.skip 2 cleaned else cleaned.

(** ** The trust validator *)

(** The text part of [_parse_pkginfo_dependencies]. *)
Definition pkginfo_depends (text : string) : list string :=
  List.flat_map
    (fun line =>
       if PyStr.startswith line "depend = " then
         let dep := PyStr.strip PyStr.isspace
                      (List.nth 1 (PyStr.split1 "=" line) "") in
         if PyStr.is_empty dep then [] else [dep]
       else [])
    (PyStr.splitlines text).

(** [_parse_pkginfo_dependencies] on what [_open_tar_archive] yields for
    the artifact: an exception, or the members of the archive. *)
Definition _parse_pkginfo_dependencies (archive : result (list TarInfo))
  : result (list string) :=
  match archive with
  | Raise e => Raise e
  | Ok members =>
      match List.find
              (fun member =>
                 let cleaned := _normalize_archive_member_name (name member) in
                 (String.eqb cleaned ".PKGINFO" || String.eqb cleaned "PKGINFO")
                 && isfile member)
              members with
      | None => Ok []
      | Some pkginfo_member =>
          match extractfile pkginfo_member with
          | None => Ok []
          | Some text => Ok (pkginfo_depends text)
          end
      end
  end.

(** The class [<>=] of version relations. *)
Definition is_relation_char (c : ascii) : bool :=
  Ascii.eqb c "<" || Ascii.eqb c ">" || Ascii.eqb c "=".

(** [re.split("[<>=]+", dep, maxsplit=1)[0].strip().lower()] *)
Definition _dependency_base (dep : string) : string :=
  PyStr.lower (PyStr.strip PyStr.isspace (fst (PyStr.break is_relation_char dep))).

(** The regular expressions [\d+\.\d] and [\d+\.]. *)
Definition re_digits_dot_digit : list PyStr.re_atom :=
  [PyStr.Many1 PyStr.is_09; PyStr.One (Ascii.eqb "."); PyStr.One PyStr.is_09].
Definition re_digits_dot : list PyStr.re_atom :=
  [PyStr.Many1 PyStr.is_09; PyStr.One (Ascii.eqb ".")].

(** The body of the loop over [zip(deps, dep_bases)]: is [dep] appended to
    [suspicious_dependencies]? *)
Definition is_suspicious (dep base : string) : bool :=
  let has_relation := List.existsb (PyStr.contains dep) [">"; "<"; "="] in
  if PyStr.is_empty base then true
  else if (String.length base <=? 1)%nat && has_relation then true
  else if PyStr.contains base "." && PyStr.re_search re_digits_dot_digit base then true
  else if PyStr.startswith base "lib" && PyStr.re_search re_digits_dot base then true
  else false.

Definition suspicious_dependencies (deps : list string) : list string :=
  List.map fst
    (List.filter (fun '(dep, base) => is_suspicious dep base)
       (List.combine deps (List.map _dependency_base deps))).

(** [len(overlap) / max(len(expected), 1)], an exact quotient: the float
    division of Python rounds it, which does not move it across [0.25] for
    sets of fewer than 2^54 elements. *)
Definition overlap_ratio (overlap expected : nat) : Q :=
  Qmake (Z.of_nat overlap) (Pos.of_nat (Nat.max expected 1)).

Definition Qltb (x y : Q) : bool := negb (Qle_bool y x).

(** The decision of [_debtap_output_is_usable] once the dependencies of the
    artifact are read. *)
Definition debtap_dependencies_usable
    (deps : list string) (metadata : PackageMetadata) : bool :=
  if bool_decide (deps = []) then true
  else
    let dep_bases := List.map _dependency_base deps in
    let expected : gset string := list_to_set (mapped_dependencies metadata) in
    let overlap : gset string := expected ∩ list_to_set dep_bases in
    let suspicious := List.length (suspicious_dependencies deps) in
    if (4 <=? suspicious)%nat then false
    else if negb (bool_decide (expected = ∅)) && (4 <=? size expected)%nat
            && (size overlap <? 2)%nat && (2 <=? suspicious)%nat then false
    else if negb (bool_decide (expected = ∅))
            && Qltb (overlap_ratio (size overlap) (size expected)) (1 # 4)
            && (3 <=? suspicious)%nat then false
    else true.

Definition _debtap_output_is_usable
    (artifact : result (list TarInfo)) (metadata : PackageMetadata) : result bool :=
  match _parse_pkginfo_dependencies artifact with
  | Raise e => Raise e
  | Ok deps => Ok (debtap_dependencies_usable deps metadata)
  end.

(** ** The file system

    A tree of directories and regular files, addressed by the components of
    resolved absolute paths; the root is always a directory.  The tree holds
    no symbolic link, which is what makes [Path.resolve] the lexical
    [resolve] above.  File operations either change the tree or raise the
    [OSError] that the operating system reports. *)

Inductive node :=
| Dir (mode : Z)
| File (data : string) (mode : Z).

Record FS := {
  cwd : string;
  umask : Z;
  tree : gmap (list string) node
}.

(** The working directory, resolved. *)
Definition getcwd (fs : FS) : list string := resolve [] (Path_of (cwd fs)).

Definition set_tree (fs : FS) (t : gmap (list string) node) : FS :=
  {| cwd := cwd fs; umask := umask fs; tree := t |}.

Definition lookup_node (fs : FS) (p : list string) : option node :=
  match p with
  | [] => Some (Dir 493)
  | _ => tree fs !! p
  end.

Definition is_dir (fs : FS) (p : list string) : bool :=
  match lookup_node fs p with Some (Dir _) => true | _ => false end.

(** Computations that read and change the file system and may raise. *)
Definition M (A : Type) : Type := FS -> result A * FS.

Definition ret {A : Type} (a : A) : M A := fun fs => (Ok a, fs).
Definition raise {A : Type} (e : exn) : M A := fun fs => (Raise e, fs).
Definition bind {A B : Type} (m : M A) (k : A -> M B) : M B :=
  fun fs =>
    match m fs with
    | (Ok a, fs') => k a fs'
    | (Raise e, fs') => (Raise e, fs')
    end.

Notation "m ;;; k" := (bind m (fun _ => k))
  (at level 100, k at level 200, right associativity).

(** [for x in l: body(x)], stopping at the first exception. *)
Fixpoint for_each {A : Type} (body : A -> M unit) (l : list A) : M unit :=
  match l with
  | [] => ret tt
  | x :: r => body x ;;; for_each body r
  end.

Definition parent (p : list string) : list string := removelast p.

(** [os.mkdir(p)] with the default mode [0o777]. *)
Definition os_mkdir (p : list string) : M unit :=
  fun fs =>
    match lookup_node fs p with
    | Some _ => (Raise (OSError "FileExistsError"), fs)
    | None =>
        match lookup_node fs (parent p) with
        | Some (Dir _) =>
            (Ok tt, set_tree fs (<[p := Dir (Z.land 511 (Z.lnot (umask fs)))]> (tree fs)))
        | Some (File _ _) => (Raise (OSError "NotADirectoryError"), fs)
        | None => (Raise (OSError "FileNotFoundError"), fs)
        end
    end.

(** [Path.mkdir(parents=False, exist_ok=True)] *)
Definition mkdir_exist_ok (p : list string) : M unit :=
  fun fs =>
    match os_mkdir p fs with
    | (Raise (OSError kind), fs') =>
        if String.eqb kind "FileNotFoundError" then (Raise (OSError kind), fs')
        else if is_dir fs' p then (Ok tt, fs') else (Raise (OSError kind), fs')
    | r => r
    end.

(** [Path.mkdir(parents=True, exist_ok=True)], by recursion on the reversed
    components: a missing parent is created first, then the directory. *)
Fixpoint mkdir_parents_rev (rp : list string) : M unit :=
  fun fs =>
    let p := rev rp in
    match os_mkdir p fs with
    | (Raise (OSError kind), fs') =>
        if String.eqb kind "FileNotFoundError" then
          match rp with
          | [] => (Raise (OSError kind), fs')
          | _ :: rparent => (mkdir_parents_rev rparent ;;; mkdir_exist_ok p) fs'
          end
        else if is_dir fs' p then (Ok tt, fs') else (Raise (OSError kind), fs')
    | r => r
    end.

Definition mkdir_parents (p : list string) : M unit := mkdir_parents_rev (rev p).

(** [with target.open("wb") as output: shutil.copyfileobj(extracted, output)]:
    the file is created with mode [0o666] less the umask, or truncated and
    rewritten with its mode kept. *)
Definition write_file (p : list string) (data : string) : M unit :=
  fun fs =>
    match lookup_node fs p with
    | Some (Dir _) => (Raise (OSError "IsADirectoryError"), fs)
    | Some (File _ m) => (Ok tt, set_tree fs (<[p := File data m]> (tree fs)))
    | None =>
        match lookup_node fs (parent p) with
        | Some (Dir _) =>
            (Ok tt, set_tree fs (<[p := File data (Z.land 438 (Z.lnot (umask fs)))]> (tree fs)))
        | Some (File _ _) => (Raise (OSError "NotADirectoryError"), fs)
        | None => (Raise (OSError "FileNotFoundError"), fs)
        end
    end.

(** [target.chmod(mode)] *)
Definition chmod (p : list string) (new_mode : Z) : M unit :=
  fun fs =>
    match p, lookup_node fs p with
    | [], _ => (Raise (OSError "PermissionError"), fs)
    | _, Some (Dir _) => (Ok tt, set_tree fs (<[p := Dir new_mode]> (tree fs)))
    | _, Some (File d _) => (Ok tt, set_tree fs (<[p := File d new_mode]> (tree fs)))
    | _, None => (Raise (OSError "FileNotFoundError"), fs)
    end.

(** ** Safe tar extraction *)

(** [(destination / member_name.lstrip("/")).resolve()] *)
Definition member_target (cwd : list string) (destination : Path) (member_name : string)
  : list string :=
  resolve cwd (Path_join destination (PyStr.lstrip (Ascii.eqb "/") member_name)).

Definition _is_safe_tar_target (cwd : list string) (destination : Path)
    (member_name : string) : bool :=
  let target_path := member_target cwd destination member_name in
  let destination_root := resolve cwd destination in
  PyStr.startswith (str_resolved target_path) (str_resolved destination_root +:+ "/")
  || bool_decide (target_path = destination_root).

(** [mode = member.mode & 0o777; if mode: target.chmod(mode)] *)
Definition apply_mode (target : list string) (member : TarInfo) : M unit :=
  let mode := Z.land (mode member) 511 in
  if (mode =? 0)%Z then ret tt else chmod target mode.

Definition _extract_regular_file (member : TarInfo) (destination : Path) : M unit :=
  fun fs =>
    let target := member_target (getcwd fs) destination (name member) in
    (mkdir_parents (parent target) ;;;
     match extractfile member with
     | None => raise (ConversionError ("Unable to read tar member: " +:+ name member))
     | Some extracted =>
         write_file target extracted ;;;
         apply_mode target member
     end) fs.

Definition is_skipped_type (member : TarInfo) : bool :=
  issym member || islnk member || isdev member || isfifo member.

(** The body of the loop of [safe_extract_tar]. *)
Definition extract_member (destination : Path) (member : TarInfo) : M unit :=
  fun fs =>
    if negb (_is_safe_tar_target (getcwd fs) destination (name member)) then
      (Raise (ConversionError ("Unsafe archive path detected: " +:+ name member)), fs)
    else if is_skipped_type member then (Ok tt, fs)
    else
      let target := member_target (getcwd fs) destination (name member) in
      if isdir member then
        (mkdir_parents target ;;; apply_mode target member) fs
      else if isfile member then _extract_regular_file member destination fs
      else (Ok tt, fs).

Definition safe_extract_tar (members : list TarInfo) (destination : Path) : M unit :=
  fun fs =>
    (mkdir_parents (resolve (getcwd fs) destination) ;;;
     for_each (extract_member destination) members) fs.

(** ** Control metadata *)

Definition _map_architecture (deb_arch : string) : string :=
  let mapping : gmap string string :=
    list_to_map [("all", "any"); ("amd64", "x86_64"); ("arm64", "aarch64");
                 ("armhf", "armv7h"); ("i386", "i686")] in
  let arch := PyStr.lower (PyStr.strip PyStr.isspace deb_arch) in
  default (PyStr.or_else arch "any") (mapping !! arch).

(** One line of the control text, on the dictionary [fields] and the key
    that continuation lines extend. *)
Definition control_line (st : gmap string string * option string) (line : string)
  : gmap string string * option string :=
  let '(fields, current_key) := st in
  if PyStr.is_empty (PyStr.strip PyStr.isspace line) then st
  else
    let continues :=
      match line, current_key with
      | String c _, Some k => if PyStr.isspace c && negb (PyStr.is_empty k) then Some k else None
      | _, _ => None
      end in
    match continues with
    | Some k =>
        (<[k := PyStr.strip PyStr.isspace
                  (default "" (fields !! k) +:+ " " +:+ PyStr.strip PyStr.isspace line)]> fields,
         current_key)
    | None =>
        match PyStr.break (Ascii.eqb ":") line with
        | (_, None) => st
        | (key, Some value) =>
            let normalized_key := PyStr.lower (PyStr.strip PyStr.isspace key) in
            (<[normalized_key := PyStr.strip PyStr.isspace value]> fields,
             Some normalized_key)
        end
    end.

Definition _parse_control_metadata (control_text : string) (source_path : Path)
  : PackageMetadata :=
  let fields := fst (foldl control_line (∅, None) (PyStr.splitlines control_text)) in
  let get (key default_value : string) := default default_value (fields !! key) in
  let depends_raw := get "depends" "" in
  let dependencies := parse_debian_depends depends_raw in
  let '(mapped_dependencies, unmapped_dependencies) := _map_dependencies dependencies in
  {| package := sanitize_package_name (get "package" (Path_stem source_path));
     version := sanitize_pkgver (get "version" "0");
     architecture := _map_architecture (get "architecture" "any");
     description := get "description" "Converted Debian package";
     maintainer := get "maintainer" "Unknown";
     depends_raw := depends_raw;
     dependencies := dependencies;
     mapped_dependencies := mapped_dependencies;
     unmapped_dependencies := unmapped_dependencies;
     source_path := source_path;
     source_format := "deb" |}.

(** ** The orchestrator

    [convert] runs external tools ([ar], [debtap], [makepkg], [zstd]) and
    file operations.  Each such step is represented by its outcome in the
    environment: the value it returns or the exception it raises.  The state
    holds what the claims are about: the scratch directories that exist and
    the steps that were run, in order.  The optional [log_callback] only
    receives progress text and is left out. *)

Record Environment := {
  input : InputFile;
  (** [create_temp_dir()] *)
  mkdtemp : result string;
  (** [_convert_tarball(...)] *)
  tarball_build : result string;
  (** [_extract_deb_members(...)]: the control and data archives *)
  deb_members : result (string * string);
  (** [_read_control_file(...)] *)
  control_file : result string;
  (** [command_exists("debtap")] *)
  debtap_installed : bool;
  (** [_convert_with_debtap(...)] *)
  debtap_run : result string;
  (** [_open_tar_archive] on the artifact of debtap *)
  debtap_artifact : result (list TarInfo);
  (** [_convert_manually_deb(...)] *)
  manual_build : result string;
  (** the exception of [shutil.rmtree] on an existing directory, if any *)
  rmtree_error : option exn
}.

Inductive step :=
| TarballBuild
| ExtractDebMembers
| ReadControlFile
| Debtap
| ValidateDebtapOutput
| ManualBuild
| Rmtree (path : string).

Record State := {
  dirs : gset string;
  trace : list step
}.

Definition C (A : Type) : Type := State -> result A * State.

(** Run a step whose outcome the environment gives. *)
Definition run {A : Type} (s : step) (outcome : result A) : C A :=
  fun st => (outcome, {| dirs := dirs st; trace := trace st ++ [s] |}).

(** [shutil.rmtree(path, ignore_errors=False)] *)
Definition shutil_rmtree (env : Environment) (path : string) : C unit :=
  fun st =>
    let st := {| dirs := dirs st; trace := trace st ++ [Rmtree path] |} in
    if bool_decide (path ∈ dirs st) then
      match rmtree_error env with
      | Some e => (Raise e, st)
      | None => (Ok tt, {| dirs := dirs st ∖ {[path]}; trace := trace st |})
      end
    else (Raise (OSError "FileNotFoundError"), st).

(** [cleanup_dir]: best effort, every exception of the removal is swallowed
    (a missing directory silently, any other one with a warning of the
    logger). *)
Definition cleanup_dir (env : Environment) (path : string) : C unit :=
  fun st =>
    match shutil_rmtree env path st with
    | (Ok tt, st') => (Ok tt, st')
    | (Raise _, st') => (Ok tt, st')
    end.

Definition create_temp_dir (env : Environment) : C string :=
  fun st =>
    match mkdtemp env with
    | Ok path => (Ok path, {| dirs := dirs st ∪ {[path]}; trace := trace st |})
    | Raise e => (Raise e, st)
    end.

Definition is_ConversionError (e : exn) : bool :=
  match e with ConversionError _ => true | _ => false end.

(** The block [if prefer_debtap and command_exists("debtap"): try: ...
    except ConversionError: ...]: the values of [package_path] and
    [used_debtap] after it. *)
Definition try_debtap (env : Environment) (metadata : PackageMetadata)
    (prefer_debtap : bool) : C (option string * bool) :=
  fun st =>
    if prefer_debtap && debtap_installed env then
      match run Debtap (debtap_run env) st with
      | (Ok path, st1) =>
          match run ValidateDebtapOutput
                  (_debtap_output_is_usable (debtap_artifact env) metadata) st1 with
          | (Ok true, st2) => (Ok (Some path, true), st2)
          | (Ok false, st2) => (Ok (None, false), st2)
          | (Raise e, st2) =>
              (* the handler leaves [package_path] as assigned above *)
              if is_ConversionError e then (Ok (Some path, false), st2)
              else (Raise e, st2)
          end
      | (Raise e, st1) =>
          if is_ConversionError e then (Ok (None, false), st1) else (Raise e, st1)
      end
    else (Ok (None, false), st).

(** The [try] block of [convert]. *)
Definition convert_body (env : Environment) (input_format temp_dir : string)
    (prefer_debtap : bool) : C ConversionResult :=
  fun st =>
    if String.eqb input_format "tarball" then
      let metadata := _parse_tarball_metadata (input_path (input env)) in
      match run TarballBuild (tarball_build env) st with
      | (Raise e, st1) => (Raise e, st1)
      | (Ok path, st1) =>
          (Ok {| metadata := metadata; package_path := path;
                 temp_dir := temp_dir; used_debtap := false |}, st1)
      end
    else
      match run ExtractDebMembers (deb_members env) st with
      | (Raise e, st1) => (Raise e, st1)
      | (Ok _, st1) =>
          match run ReadControlFile (control_file env) st1 with
          | (Raise e, st2) => (Raise e, st2)
          | (Ok control_text, st2) =>
              let metadata :=
                _parse_control_metadata control_text (input_path (input env)) in
              match try_debtap env metadata prefer_debtap st2 with
              | (Raise e, st3) => (Raise e, st3)
              | (Ok (Some path, used_debtap), st3) =>
                  (Ok {| metadata := metadata; package_path := path;
                         temp_dir := temp_dir; used_debtap := used_debtap |}, st3)
              | (Ok (None, used_debtap), st3) =>
                  (* if package_path is None: *)
                  match run ManualBuild (manual_build env) st3 with
                  | (Raise e, st4) => (Raise e, st4)
                  | (Ok path, st4) =>
                      (Ok {| metadata := metadata; package_path := path;
                             temp_dir := temp_dir; used_debtap := used_debtap |}, st4)
                  end
              end
          end
      end.

Definition convert (env : Environment) (prefer_debtap : bool) : C ConversionResult :=
  fun st =>
    match validate_input_file (input env) with
    | Raise e => (Raise e, st)
    | Ok input_format =>
        match create_temp_dir env st with
        | (Raise e, st') => (Raise e, st')
        | (Ok temp_dir, st1) =>
            match convert_body env input_format temp_dir prefer_debtap st1 with
            | (Ok r, st2) => (Ok r, st2)
            | (Raise e, st2) =>
                (* except Exception: cleanup_dir(temp_dir); raise *)
                (Raise e, snd (cleanup_dir env temp_dir st2))
            end
        end
    end.

(** ** More of utils.py and converter.py *)

(** [format_dependency_list] *)
Definition format_dependency_list (items : list string) : string :=
  if bool_decide (items = []) then "none"
  else PyStr.join ", " (sorted_set items).

(** [cleanup_workspace] *)
Definition cleanup_workspace (env : Environment) (workspace : string) : C unit :=
  cleanup_dir env workspace.

(** [inspect_metadata]: the [finally] clause runs [cleanup_dir] whether the
    [try] block returns or raises. *)
Definition inspect_metadata (env : Environment) : C PackageMetadata :=
  fun st =>
    match validate_input_file (input env) with
    | Raise e => (Raise e, st)
    | Ok input_format =>
        if String.eqb input_format "tarball" then
          (Ok (_parse_tarball_metadata (input_path (input env))), st)
        else
          match create_temp_dir env st with
          | (Raise e, st') => (Raise e, st')
          | (Ok temp_dir, st1) =>
              let '(r, st4) :=
                match run ExtractDebMembers (deb_members env) st1 with
                | (Raise e, st2) => (Raise e, st2)
                | (Ok _, st2) =>
                    match run ReadControlFile (control_file env) st2 with
                    | (Raise e, st3) => (Raise e, st3)
                    | (Ok control_text, st3) =>
                        (Ok (_parse_control_metadata control_text
                               (input_path (input env))), st3)
                    end
                end in
              (r, snd (cleanup_dir env temp_dir st4))
          end
    end.

(** The first part of [_extract_deb_members]: the members named by the
    listing of [ar t]. *)
Definition listed_member (prefix : string) (listing : list string) : option string :=
  option_map (PyStr.strip PyStr.isspace)
    (List.find (fun line => PyStr.startswith line prefix) listing).

Definition select_deb_members (listing : list string) : result (string * string) :=
  match listed_member "control.tar" listing, listed_member "data.tar" listing with
  | Some control_member, Some data_member =>
      if PyStr.is_empty control_member || PyStr.is_empty data_member then
        Raise (ConversionError ".deb is missing control.tar or data.tar archive")
      else Ok (control_member, data_member)
  | _, _ => Raise (ConversionError ".deb is missing control.tar or data.tar archive")
  end.

(** An entry of [install_root.rglob("*")]: its path relative to the install
    root, [is_file()] and [os.access(path, os.X_OK)]. *)
Record Entry := {
  rel_parts : list string;
  entry_is_file : bool;
  entry_executable : bool
}.

Definition entry_name (e : Entry) : string := List.last (rel_parts e) "".

(** [s.replace(a, "")] for a one-character [a]. *)
Fixpoint remove_char (a : ascii) (s : string) : string :=
  match s with
  | "" => ""
  | String c r => if Ascii.eqb c a then remove_char a r else String c (remove_char a r)
  end.

Definition executable_candidates (entries : list Entry) : list Entry :=
  List.filter
    (fun e => entry_is_file e && (List.length (rel_parts e) <=? 4)%nat
              && entry_executable e)
    entries.

Definition _pick_primary_executable (entries : list Entry) (package_name : string)
  : option Entry :=
  let candidates := executable_candidates entries in
  match candidates with
  | [] => None
  | first :: _ =>
      let preferred_names :=
        [package_name; remove_char "-" package_name; PyStr.replace "-" "_" package_name] in
      match List.find
              (fun c => List.existsb (String.eqb (entry_name c)) preferred_names)
              candidates with
      | Some candidate => Some candidate
      | None =>
          match List.find
                  (fun c => (List.length (rel_parts c) =? 1)%nat
                            && negb (PyStr.contains (entry_name c) "."))
                  candidates with
          | Some candidate => Some candidate
          | None => Some first
          end
      end
  end.

(** [value.replace("'", "'\\''")] *)
Definition quote_escape : string := String "'" (String "\" (String "'" (String "'" ""))).

Fixpoint escape_quotes (value : string) : string :=
  match value with
  | "" => ""
  | String c r =>
      if Ascii.eqb c "'" then quote_escape +:+ escape_quotes r
      else String c (escape_quotes r)
  end.

(** The local function [quoted] of [_render_pkgbuild]. *)
Definition quoted (value : string) : string :=
  "'" +:+ escape_quotes value +:+ "'".

Definition pkgbuild_arch (metadata : PackageMetadata) : string :=
  let arch_value := PyStr.or_else (architecture metadata) "any" in
  if List.existsb (String.eqb arch_value) ["any"; "x86_64"; "aarch64"; "armv7h"; "i686"]
  then arch_value else "any".

Definition pkgbuild_pkgdesc (metadata : PackageMetadata) : string :=
  let pkgdesc := PyStr.or_else (description metadata) "Converted package" in
  if (120 <? String.length pkgdesc)%nat then PyStr.take 117 pkgdesc +:+ "..." else pkgdesc.

Definition pkgbuild_depends_line (metadata : PackageMetadata) : string :=
  match mapped_dependencies metadata with
  | [] => "depends=()"
  | deps => "depends=(" +:+ PyStr.join " " (List.map quoted deps) +:+ ")"
  end.

Definition _render_pkgbuild (metadata : PackageMetadata) : string :=
  let nl := String PyStr.newline "" in
  let dq : ascii := "034"%char in
  "# Maintainer: deb2arch-installer" +:+ nl +:+
  "pkgname=" +:+ quoted (package metadata) +:+ nl +:+
  "pkgver=" +:+ quoted (version metadata) +:+ nl +:+
  "pkgrel=1" +:+ nl +:+
  "pkgdesc=" +:+ quoted (pkgbuild_pkgdesc metadata) +:+ nl +:+
  "arch=(" +:+ quoted (pkgbuild_arch metadata) +:+ ")" +:+ nl +:+
  "url=" +:+ quoted "https://example.invalid/deb2arch-installer" +:+ nl +:+
  "license=('custom')" +:+ nl +:+
  pkgbuild_depends_line metadata +:+ nl +:+
  "options=('!strip' '!debug')" +:+ nl +:+
  "source=()" +:+ nl +:+
  "sha256sums=()" +:+ nl +:+
  nl +:+
  "package() {" +:+ nl +:+
  "    cp -a " +:+ String dq "$startdir/pkgroot/." +:+ String dq " " +:+
    String dq "$pkgdir/" +:+ String dq "" +:+ nl +:+
  "}" +:+ nl.

(** ** Predicates used by the statements *)

(** What [sanitize_pkgver] leaves: legal characters only, no two dots in a
    row, no dot at either end, and at least one character. *)
Definition pkgver_clean (s : string) : Prop :=
  PyStr.forallb pkgver_char s = true /\
  PyStr.no_run "." s = true /\
  PyStr.head_kept (Ascii.eqb ".") s = true /\
  PyStr.rstrip (Ascii.eqb ".") s = s /\
  PyStr.is_empty s = false.

Definition is_Rmtree (s : step) : bool :=
  match s with Rmtree _ => true | _ => false end.

(** A path component: no separator inside. *)
Definition no_slash (c : string) : bool :=
  PyStr.forallb (fun x => negb (Ascii.eqb x "/")) c.

(** The components, each followed by the separator. *)
Fixpoint cat_sep (l : list string) : string :=
  match l with
  | [] => ""
  | c :: r => c +:+ "/" +:+ cat_sep r
  end.

(** Two paths of which one is an ancestor of the other, or the same. *)
Definition comparable (p q : list string) : Prop :=
  p `prefix_of` q \/ q `prefix_of` p.

(** What an extraction into [root] may change: inside [root] anything;
    outside it nothing, except that a missing ancestor of [root] may be
    created as a directory. *)
Definition confined (root : list string) (fs fs' : FS) : Prop :=
  cwd fs' = cwd fs /\
  umask fs' = umask fs /\
  forall p : list string,
    ~ root `prefix_of` p ->
    tree fs' !! p = tree fs !! p \/
    (tree fs !! p = None /\ (exists m, tree fs' !! p = Some (Dir m)) /\ p `prefix_of` root).

(** The characters that [sanitize_package_name] can return:
    [a-z0-9@._+-]. *)
Definition pkgname_out_char (c : ascii) : bool :=
  PyStr.is_az c || PyStr.is_09 c ||
  Ascii.eqb c "@" || Ascii.eqb c "." || Ascii.eqb c "_" ||
  Ascii.eqb c "+" || Ascii.eqb c "-".

(** The characters stripped from both ends of a package name. *)
Definition pkgname_edge (c : ascii) : bool :=
  Ascii.eqb c "-" || Ascii.eqb c "." || Ascii.eqb c "_".

(** ** Sample inputs *)

Definition sample_deb : InputFile :=
  {| input_path := Path_of "/home/user/app_1.0_amd64.deb";
     path_exists := true;
     path_is_file := true;
     file_bytes := ar_magic +:+ "debian-binary";
     is_tarfile := false |}.

(** Five dependencies, each with an entry in the translation table. *)
Definition sample_control : string :=
  "Package: app" +:+ String PyStr.newline "" +:+
  "Version: 1.0" +:+ String PyStr.newline "" +:+
  "Depends: libc6, libgtk-3-0, libnss3, libcurl4, zlib1g" +:+ String PyStr.newline "".

(** An artifact whose [.PKGINFO] declares the one dependency [pytho.3]. *)
Definition pytho_artifact : list TarInfo :=
  [ {| name := ".PKGINFO"; type := REGTYPE; mode := 420;
       content := "pkgname = app" +:+ String PyStr.newline "" +:+
                  "depend = pytho.3" +:+ String PyStr.newline "" |};
    {| name := "usr/bin/app"; type := REGTYPE; mode := 493; content := "" |} ].

Definition sample_env : Environment :=
  {| input := sample_deb;
     mkdtemp := Ok "/tmp/deb2arch-k3x9";
     tarball_build := Raise (OtherException "not a tarball");
     deb_members := Ok ("/tmp/deb2arch-k3x9/control.tar.xz", "/tmp/deb2arch-k3x9/data.tar.xz");
     control_file := Ok sample_control;
     debtap_installed := true;
     debtap_run := Ok "/tmp/deb2arch-k3x9/debtap-output/app-1.0-1-x86_64.pkg.tar.zst";
     debtap_artifact := Ok pytho_artifact;
     manual_build := Ok "/tmp/deb2arch-k3x9/manual-build/app-1.0-1-x86_64.pkg.tar.zst";
     rmtree_error := None |}.

(** No debtap, a manual build that fails, and a scratch directory that
    cannot be removed. *)
Definition failing_env : Environment :=
  {| input := sample_deb;
     mkdtemp := Ok "/tmp/deb2arch-k3x9";
     tarball_build := Raise (OtherException "not a tarball");
     deb_members := Ok ("/tmp/deb2arch-k3x9/control.tar.xz", "/tmp/deb2arch-k3x9/data.tar.xz");
     control_file := Ok sample_control;
     debtap_installed := false;
     debtap_run := Raise (ConversionError "debtap failed");
     debtap_artifact := Raise (ConversionError "no artifact");
     manual_build := Raise (ConversionError "makepkg failed during manual conversion");
     rmtree_error := Some (OSError "PermissionError") |}.

Definition empty_state : State := {| dirs := ∅; trace := [] |}.

(** debtap produces an artifact that cannot be opened ([zstd] is missing). *)
Definition unreadable_artifact_env : Environment :=
  {| input := sample_deb;
     mkdtemp := Ok "/tmp/deb2arch-k3x9";
     tarball_build := Raise (OtherException "not a tarball");
     deb_members := Ok ("/tmp/deb2arch-k3x9/control.tar.xz", "/tmp/deb2arch-k3x9/data.tar.xz");
     control_file := Ok sample_control;
     debtap_installed := true;
     debtap_run := Ok "/tmp/deb2arch-k3x9/debtap-output/app-1.0-1-x86_64.pkg.tar.zst";
     debtap_artifact := Raise (ConversionError "zstd is required to process .tar.zst archives");
     manual_build := Ok "/tmp/deb2arch-k3x9/manual-build/app-1.0-1-x86_64.pkg.tar.zst";
     rmtree_error := None |}.

(** debtap fails; the manual build works. *)
Definition debtap_failing_env : Environment :=
  {| input := sample_deb;
     mkdtemp := Ok "/tmp/deb2arch-k3x9";
     tarball_build := Raise (OtherException "not a tarball");
     deb_members := Ok ("/tmp/deb2arch-k3x9/control.tar.xz", "/tmp/deb2arch-k3x9/data.tar.xz");
     control_file := Ok sample_control;
     debtap_installed := true;
     debtap_run := Raise (ConversionError "debtap completed but no package artifact was produced");
     debtap_artifact := Raise (OtherException "no artifact");
     manual_build := Ok "/tmp/deb2arch-k3x9/manual-build/app-1.0-1-x86_64.pkg.tar.zst";
     rmtree_error := None |}.

Definition sample_tarball : InputFile :=
  {| input_path := Path_of "/home/user/MyApp-2.0.1-linux-x64.TGZ";
     path_exists := true;
     path_is_file := true;
     file_bytes := "";
     is_tarfile := true |}.

Definition tarball_env : Environment :=
  {| input := sample_tarball;
     mkdtemp := Ok "/tmp/deb2arch-t7";
     tarball_build := Ok "/tmp/deb2arch-t7/tarball-build/myapp-2.0.1.linux.x64-1-x86_64.pkg.tar.zst";
     deb_members := Raise (OtherException "not a deb");
     control_file := Raise (OtherException "not a deb");
     debtap_installed := true;
     debtap_run := Raise (OtherException "not a deb");
     debtap_artifact := Raise (OtherException "not a deb");
     manual_build := Raise (OtherException "not a deb");
     rmtree_error := None |}.
(** ** Facts about the [str] primitives *)

Section PyStrFacts.
Import PyStr.

Lemma map_fixed (P : ascii -> bool) (f : ascii -> ascii) (s : string) :
  (forall c, P c = true -> f c = c) ->
  PyStr.forallb P s = true -> PyStr.map f s = s.
Proof.
  intros Hf. induction s as [|c r IH]; simpl; [reflexivity|].
  intros [Hc Hr]%andb_true_iff. rewrite (Hf c Hc), (IH Hr). reflexivity.
Qed.

Lemma forallb_map (P : ascii -> bool) (f : ascii -> ascii) (s : string) :
  (forall c, P (f c) = true) -> PyStr.forallb P (PyStr.map f s) = true.
Proof.
  intros Hf. induction s as [|c r IH]; simpl; [reflexivity|].
  rewrite Hf, IH. reflexivity.
Qed.

Lemma forallb_impl (P Q : ascii -> bool) (s : string) :
  (forall c, P c = true -> Q c = true) ->
  PyStr.forallb P s = true -> PyStr.forallb Q s = true.
Proof.
  intros HPQ. induction s as [|c r IH]; simpl; [reflexivity|].
  intros [Hc Hr]%andb_true_iff. rewrite (HPQ c Hc), (IH Hr). reflexivity.
Qed.

Lemma break_none (p : ascii -> bool) (s : string) :
  PyStr.forallb (fun c => negb (p c)) s = true -> break p s = (s, None).
Proof.
  induction s as [|c r IH]; simpl; [reflexivity|].
  intros [Hc Hr]%andb_true_iff. apply negb_true_iff in Hc.
  rewrite Hc, (IH Hr). reflexivity.
Qed.

Lemma forallb_squeeze (P : ascii -> bool) (a : ascii) (s : string) :
  PyStr.forallb P s = true -> PyStr.forallb P (squeeze a s) = true.
Proof.
  induction s as [|c r IH]; simpl; [reflexivity|].
  intros [Hc Hr]%andb_true_iff. specialize (IH Hr).
  destruct (Ascii.eqb c a && head_is a (squeeze a r)); [exact IH|].
  simpl. rewrite Hc, IH. reflexivity.
Qed.

Lemma forallb_lstrip (P p : ascii -> bool) (s : string) :
  PyStr.forallb P s = true -> PyStr.forallb P (lstrip p s) = true.
Proof.
  induction s as [|c r IH]; simpl; [reflexivity|].
  intros H. destruct (p c); [|exact H].
  apply andb_true_iff in H as [_ Hr]. exact (IH Hr).
Qed.

Lemma forallb_rstrip (P p : ascii -> bool) (s : string) :
  PyStr.forallb P s = true -> PyStr.forallb P (rstrip p s) = true.
Proof.
  induction s as [|c r IH]; simpl; [reflexivity|].
  intros [Hc Hr]%andb_true_iff.
  destruct (is_empty (rstrip p r) && p c); [reflexivity|].
  simpl. rewrite Hc, (IH Hr). reflexivity.
Qed.

Lemma no_run_squeeze (a : ascii) (s : string) : no_run a (squeeze a s) = true.
Proof.
  induction s as [|c r IH]; [reflexivity|].
  cbn [squeeze]. destruct (Ascii.eqb c a && head_is a (squeeze a r)) eqn:E;
    [exact IH|].
  cbn [no_run]. rewrite E, IH. reflexivity.
Qed.

Lemma squeeze_no_run (a : ascii) (s : string) :
  no_run a s = true -> squeeze a s = s.
Proof.
  induction s as [|c r IH]; [reflexivity|].
  cbn [no_run squeeze]. intros [Hc Hr]%andb_true_iff.
  rewrite (IH Hr). apply negb_true_iff in Hc. rewrite Hc. reflexivity.
Qed.

Lemma no_run_tail (a c : ascii) (r : string) :
  no_run a (String c r) = true -> no_run a r = true.
Proof. cbn [no_run]. intros [_ H]%andb_true_iff. exact H. Qed.

Lemma no_run_lstrip (a : ascii) (p : ascii -> bool) (s : string) :
  no_run a s = true -> no_run a (lstrip p s) = true.
Proof.
  induction s as [|c r IH]; [reflexivity|].
  intros H. cbn [lstrip]. destruct (p c); [|exact H].
  apply IH. exact (no_run_tail _ _ _ H).
Qed.

(** [rstrip] keeps the first character of whatever it leaves. *)
Lemma rstrip_head (p : ascii -> bool) (s : string) :
  rstrip p s = "" \/
  exists c r r', s = String c r /\ rstrip p s = String c r'.
Proof.
  destruct s as [|c r]; [left; reflexivity|].
  cbn [rstrip]. destruct (is_empty (rstrip p r) && p c); [left; reflexivity|].
  right. eauto.
Qed.

Lemma no_run_rstrip (a : ascii) (p : ascii -> bool) (s : string) :
  no_run a s = true -> no_run a (rstrip p s) = true.
Proof.
  induction s as [|c r IH]; [reflexivity|].
  cbn [no_run]. intros [Hc Hr]%andb_true_iff. specialize (IH Hr).
  cbn [rstrip]. destruct (is_empty (rstrip p r) && p c); [reflexivity|].
  cbn [no_run]. rewrite IH, andb_true_r.
  destruct (rstrip_head p r) as [E|(d & r0 & r1 & E1 & E2)].
  - rewrite E. cbn. rewrite andb_false_r. reflexivity.
  - rewrite E2. subst r. exact Hc.
Qed.

Lemma rstrip_idem (p : ascii -> bool) (s : string) :
  rstrip p (rstrip p s) = rstrip p s.
Proof.
  induction s as [|c r IH]; [reflexivity|].
  cbn [rstrip]. destruct (is_empty (rstrip p r) && p c) eqn:E; [reflexivity|].
  cbn [rstrip]. rewrite IH, E. reflexivity.
Qed.

Lemma lstrip_fixed (p : ascii -> bool) (s : string) :
  head_kept p s = true -> lstrip p s = s.
Proof.
  destruct s as [|c r]; [reflexivity|]. cbn. intros H%negb_true_iff.
  rewrite H. reflexivity.
Qed.

Lemma head_kept_lstrip (p : ascii -> bool) (s : string) :
  head_kept p (lstrip p s) = true.
Proof.
  induction s as [|c r IH]; [reflexivity|].
  cbn [lstrip]. destruct (p c) eqn:E; [exact IH|]. cbn. rewrite E. reflexivity.
Qed.

Lemma head_kept_rstrip (p : ascii -> bool) (s : string) :
  head_kept p s = true -> head_kept p (rstrip p s) = true.
Proof.
  destruct (rstrip_head p s) as [E|(d & r0 & r1 & E1 & E2)].
  - rewrite E. reflexivity.
  - rewrite E2, E1. intros H. exact H.
Qed.

Lemma strip_idem (p : ascii -> bool) (s : string) :
  strip p (strip p s) = strip p s.
Proof.
  unfold strip.
  rewrite (lstrip_fixed p (rstrip p (lstrip p s))).
  - apply rstrip_idem.
  - apply head_kept_rstrip, head_kept_lstrip.
Qed.

End PyStrFacts.

Example sanitize_pkgver_ex1 : sanitize_pkgver "1:1.2.3-1~rc1" = "1.2.3.1.rc1".
Proof. reflexivity. Qed.

Example sanitize_pkgver_ex2 : sanitize_pkgver "--" = "0".
Proof. reflexivity. Qed.

Example sanitize_pkgver_ex3 : sanitize_pkgver "2:a::b" = "a.b".
Proof. reflexivity. Qed.


(** ** Version sanitization *)

Lemma pkgver_char_not (a : ascii) :
  pkgver_char a = false -> forall c, pkgver_char c = true -> Ascii.eqb c a = false.
Proof.
  intros Ha c Hc. destruct (Ascii.eqb c a) eqn:E; [|reflexivity].
  apply Ascii.eqb_eq in E. congruence.
Qed.

Lemma sanitize_pkgver_clean_fixed (s : string) :
  pkgver_clean s -> sanitize_pkgver s = s.
Proof.
  intros (Hall & Hrun & Hhead & Htail & Hne).
  unfold sanitize_pkgver. rewrite Hne.
  unfold PyStr.split1. rewrite (break_none (Ascii.eqb ":") s).
  2:{ eapply forallb_impl; [|exact Hall]. intros c Hc.
      rewrite Ascii.eqb_sym. rewrite (pkgver_char_not ":" eq_refl c Hc). reflexivity. }
  cbn [List.last]. unfold PyStr.replace, PyStr.sub_class.
  rewrite (map_fixed pkgver_char _ s); [|intros c Hc|exact Hall].
  2:{ rewrite (pkgver_char_not "~" eq_refl c Hc). reflexivity. }
  rewrite (map_fixed pkgver_char _ s); [|intros c Hc|exact Hall].
  2:{ rewrite (pkgver_char_not "-" eq_refl c Hc). reflexivity. }
  rewrite (map_fixed pkgver_char _ s); [|intros c Hc|exact Hall].
  2:{ rewrite Hc. reflexivity. }
  rewrite (squeeze_no_run _ _ Hrun).
  unfold PyStr.strip. rewrite (lstrip_fixed _ _ Hhead), Htail.
  unfold PyStr.or_else. rewrite Hne. reflexivity.
Qed.

Lemma sanitize_pkgver_clean (v : string) : pkgver_clean (sanitize_pkgver v).
Proof.
  unfold sanitize_pkgver. destruct (PyStr.is_empty v).
  { repeat split; reflexivity. }
  set (x := PyStr.sub_class _ _ _).
  assert (Hx : PyStr.forallb pkgver_char x = true).
  { apply forallb_map. intros c. destruct (pkgver_char c) eqn:E; [exact E|reflexivity]. }
  clearbody x.
  set (y := PyStr.strip _ (PyStr.squeeze "." x)).
  assert (Hy : PyStr.forallb pkgver_char y = true /\
               PyStr.no_run "." y = true /\
               PyStr.head_kept (Ascii.eqb ".") y = true /\
               PyStr.rstrip (Ascii.eqb ".") y = y).
  { unfold y, PyStr.strip. repeat split.
    - apply forallb_rstrip, forallb_lstrip, forallb_squeeze, Hx.
    - apply no_run_rstrip, no_run_lstrip, no_run_squeeze.
    - apply head_kept_rstrip, head_kept_lstrip.
    - apply rstrip_idem. }
  clearbody y. unfold PyStr.or_else. destruct (PyStr.is_empty y) eqn:E.
  - repeat split; reflexivity.
  - destruct Hy as (H1 & H2 & H3 & H4). repeat split; assumption.
Qed.

(** C9. Version sanitization is idempotent: sanitizing the sanitized
    version string gives it back unchanged, for every version string. *)
Theorem sanitize_pkgver_idempotent (v : string) :
  sanitize_pkgver (sanitize_pkgver v) = sanitize_pkgver v.
Proof. apply sanitize_pkgver_clean_fixed, sanitize_pkgver_clean. Qed.

(** ** Tarball metadata inference *)

Lemma first_index_app {A : Type} (p : A -> bool) (pre post : list A) (t : A) :
  Forall (fun x => p x = false) pre -> p t = true ->
  first_index p (pre ++ t :: post) = Some (List.length pre).
Proof.
  intros Hpre Ht. induction Hpre as [|x pre Hx _ IH]; simpl.
  - rewrite Ht. reflexivity.
  - rewrite Hx, IH. reflexivity.
Qed.

Lemma first_index_none {A : Type} (p : A -> bool) (l : list A) :
  Forall (fun x => p x = false) l -> first_index p l = None.
Proof.
  intros H. induction H as [|x l Hx _ IH]; simpl; [reflexivity|].
  rewrite Hx, IH. reflexivity.
Qed.

Lemma existsb_nonempty (p : ascii -> bool) (s : string) :
  PyStr.existsb p s = true -> PyStr.is_empty s = false.
Proof. destruct s; [discriminate|reflexivity]. Qed.

Lemma join_nonempty (sep t : string) (l : list string) :
  PyStr.is_empty t = false -> PyStr.is_empty (PyStr.join sep (t :: l)) = false.
Proof.
  intros Ht. destruct t as [|c t]; [discriminate|].
  destruct l; reflexivity.
Qed.

(** The scenario of the specification, as the code computes it. *)
Example tarball_scenario :
  let m := _parse_tarball_metadata (Path_of "myapp-2.0.1-x86_64.tar.gz") in
  tarball_tokens "myapp-2.0.1-x86_64" = ["myapp"; "2.0.1"; "x86"; "64"] /\
  package m = "myapp" /\ version m = "2.0.1.x86.64" /\ architecture m = "x86_64".
Proof. repeat split; reflexivity. Qed.

(** C5 (as stated, refuted). For [myapp-2.0.1-x86_64.tar.gz] the inferred
    metadata is not package "myapp", version "2.0.1", architecture "x86_64":
    the version is made of every token from "2.0.1" onward. *)
Lemma tarball_scenario_version_is_not_2_0_1 :
  let m := _parse_tarball_metadata (Path_of "myapp-2.0.1-x86_64.tar.gz") in
  ~ (package m = "myapp" /\ version m = "2.0.1" /\ architecture m = "x86_64").
Proof. intros m (_ & H & _). vm_compute in H. discriminate H. Qed.

(** C5 (amended). For [myapp-2.0.1-x86_64.tar.gz] the inferred metadata is
    package "myapp", version "2.0.1.x86.64", architecture "x86_64"; and for
    every source path the rule holds: the base name (suffix stripped) is split
    on runs of [-] and [_], the tokens before the first token with a digit
    make the package name, the tokens from it onward make the version, and
    without such a token the whole base name is the package name and the
    version is "1.0.0". *)
Theorem tarball_metadata_inference :
  (let m := _parse_tarball_metadata (Path_of "myapp-2.0.1-x86_64.tar.gz") in
   package m = "myapp" /\ version m = "2.0.1.x86.64" /\ architecture m = "x86_64") /\
  forall source_path : Path,
    let base_name := _strip_archive_suffix (Path_name source_path) in
    let m := _parse_tarball_metadata source_path in
    (forall (pre post : list string) (t : string),
        tarball_tokens base_name = pre ++ t :: post ->
        Forall (fun token => has_digit token = false) pre ->
        has_digit t = true ->
        package m = sanitize_package_name (PyStr.or_else (PyStr.join "-" pre) base_name) /\
        version m = sanitize_pkgver (PyStr.join "-" (t :: post))) /\
    (Forall (fun token => has_digit token = false) (tarball_tokens base_name) ->
     package m = sanitize_package_name base_name /\ version m = "1.0.0").
Proof.
  split; [repeat split; reflexivity|].
  intros source_path base_name m. split.
  - intros pre post t Htok Hpre Ht.
    unfold m, _parse_tarball_metadata. fold base_name.
    rewrite Htok, (first_index_app _ _ _ _ Hpre Ht).
    rewrite List.firstn_app, Nat.sub_diag, List.firstn_all. cbn [List.firstn].
    rewrite List.app_nil_r.
    rewrite List.skipn_app, Nat.sub_diag, List.skipn_all. cbn [List.skipn package version].
    rewrite List.app_nil_l.
    split; [reflexivity|].
    f_equal. unfold PyStr.or_else.
    rewrite (join_nonempty "-" t post (existsb_nonempty _ _ Ht)). reflexivity.
  - intros Hall. unfold m, _parse_tarball_metadata. fold base_name.
    rewrite (first_index_none _ _ Hall). split; reflexivity.
Qed.

(** ** Input validation *)




(** ** The trust validator *)

Lemma Qltb_lt (x y : Q) : Qltb x y = true <-> (x < y)%Q.
Proof.
  unfold Qltb. rewrite negb_true_iff. split.
  - intros H. apply Qnot_le_lt. intros Hle.
    apply Qle_bool_iff in Hle. congruence.
  - intros H. destruct (Qle_bool y x) eqn:E; [|reflexivity].
    apply Qle_bool_iff in E. exfalso. exact (Qlt_not_le _ _ H E).
Qed.

Lemma gset_nonempty_size (X : gset string) :
  negb (bool_decide (X = ∅)) = true <-> size X <> 0%nat.
Proof.
  rewrite negb_true_iff, bool_decide_eq_false.
  split; intros H E; apply H.
  - apply size_empty_iff in E. apply leibniz_equiv. exact E.
  - subst X. apply size_empty.
Qed.

Lemma overlap_ratio_positive (overlap expected : nat) :
  expected <> 0%nat ->
  overlap_ratio overlap expected = Qmake (Z.of_nat overlap) (Pos.of_nat expected).
Proof.
  intros H. unfold overlap_ratio. rewrite Nat.max_l by lia. reflexivity.
Qed.

(** The rejection rule of the validator, for an artifact that declares at
    least one dependency. *)
Lemma debtap_dependencies_usable_false (deps : list string) (metadata : PackageMetadata) :
  let expected : gset string := list_to_set (mapped_dependencies metadata) in
  let overlap := size (expected ∩ list_to_set (List.map _dependency_base deps)) in
  let suspicious := List.length (suspicious_dependencies deps) in
  deps <> [] ->
  (debtap_dependencies_usable deps metadata = false <->
   (4 <= suspicious)%nat \/
   ((4 <= size expected)%nat /\ (overlap < 2)%nat /\ (2 <= suspicious)%nat) \/
   (size expected <> 0%nat /\
    (Qmake (Z.of_nat overlap) (Pos.of_nat (size expected)) < 1 # 4)%Q /\
    (3 <= suspicious)%nat)).
Proof.
  intros expected overlap suspicious Hne.
  unfold debtap_dependencies_usable.
  rewrite bool_decide_eq_false_2 by exact Hne.
  fold expected. fold overlap. fold suspicious.
  destruct (4 <=? suspicious)%nat eqn:H4.
  { apply Nat.leb_le in H4. split; [auto|reflexivity]. }
  apply Nat.leb_gt in H4.
  destruct (negb (bool_decide (expected = ∅))) eqn:Hexp.
  - apply gset_nonempty_size in Hexp. cbn [andb].
    rewrite (overlap_ratio_positive _ _ Hexp).
    destruct ((4 <=? size expected)%nat && (overlap <? 2)%nat && (2 <=? suspicious)%nat) eqn:H2.
    { apply andb_true_iff in H2 as [[Ha Hb]%andb_true_iff Hc].
      apply Nat.leb_le in Ha, Hc. apply Nat.ltb_lt in Hb.
      split; [auto 10|reflexivity]. }
    destruct (Qltb (Z.of_nat overlap # Pos.of_nat (size expected)) (1 # 4)
              && (3 <=? suspicious)%nat) eqn:H3.
    { apply andb_true_iff in H3 as [Ha Hb].
      apply Qltb_lt in Ha. apply Nat.leb_le in Hb.
      split; [auto 10|reflexivity]. }
    split; [discriminate|].
    intros [Hs|[(Ha & Hb & Hc)|(_ & Ha & Hb)]]; [lia| |].
    + apply Nat.leb_le in Ha, Hc. apply Nat.ltb_lt in Hb.
      rewrite Ha, Hb, Hc in H2. discriminate H2.
    + apply Qltb_lt in Ha. apply Nat.leb_le in Hb.
      rewrite Ha, Hb in H3. discriminate H3.
  - cbn [andb]. apply negb_false_iff, bool_decide_eq_true in Hexp.
    assert (Hsz : size expected = 0%nat) by (rewrite Hexp; apply size_empty).
    split; [discriminate|].
    intros [Hs|[(Ha & _)|(Ha & _)]]; [lia|lia|contradiction].
Qed.

(** C3. The trust validator accepts every artifact that declares no
    dependency; for one that declares some, it rejects exactly when the
    suspicious count is at least 4, or the expected set has at least 4
    elements with overlap below 2 and at least 2 suspicious entries, or the
    expected set is not empty with overlap over its size below 0.25 and at
    least 3 suspicious entries; otherwise it accepts.  So an artifact with 4
    or more garbled (suspicious) entries is rejected, and [openss.3.0.1] and
    [libfoo.2.] are such entries. *)
Theorem debtap_output_is_usable_decision
    (artifact : result (list TarInfo)) (metadata : PackageMetadata) :
  match _parse_pkginfo_dependencies artifact with
  | Raise e => _debtap_output_is_usable artifact metadata = Raise e
  | Ok deps =>
      let expected : gset string := list_to_set (mapped_dependencies metadata) in
      let overlap := size (expected ∩ list_to_set (List.map _dependency_base deps)) in
      let suspicious := List.length (suspicious_dependencies deps) in
      exists usable : bool,
        _debtap_output_is_usable artifact metadata = Ok usable /\
        (deps = [] -> usable = true) /\
        (deps <> [] ->
         (usable = false <->
          (4 <= suspicious)%nat \/
          ((4 <= size expected)%nat /\ (overlap < 2)%nat /\ (2 <= suspicious)%nat) \/
          (size expected <> 0%nat /\
           (Qmake (Z.of_nat overlap) (Pos.of_nat (size expected)) < 1 # 4)%Q /\
           (3 <= suspicious)%nat))) /\
        ((4 <= suspicious)%nat -> usable = false)
  end /\
  suspicious_dependencies ["openss.3.0.1"; "libfoo.2."] = ["openss.3.0.1"; "libfoo.2."].
Proof.
  split; [|reflexivity].
  unfold _debtap_output_is_usable.
  destruct (_parse_pkginfo_dependencies artifact) as [deps|e]; [|reflexivity].
  exists (debtap_dependencies_usable deps metadata).
  split; [reflexivity|]. split; [|split].
  - intros ->. reflexivity.
  - intros Hne. exact (debtap_dependencies_usable_false deps metadata Hne).
  - intros H4. destruct deps as [|d deps'].
    + cbn in H4. lia.
    + apply (debtap_dependencies_usable_false (d :: deps') metadata); [discriminate|].
      left. exact H4.
Qed.

(** An artifact that declares only [pytho.3] has no suspicious entry, and
    every rejection rule needs at least two. *)
Lemma pytho_3_is_usable (metadata : PackageMetadata) :
  debtap_dependencies_usable ["pytho.3"] metadata = true.
Proof.
  unfold debtap_dependencies_usable.
  rewrite bool_decide_eq_false_2 by discriminate.
  change (suspicious_dependencies ["pytho.3"]) with (@nil string).
  cbn [List.length Nat.leb]. rewrite !andb_false_r. reflexivity.
Qed.

(** C4 (as stated, refuted). The artifact declares the one dependency
    [pytho.3], the expected set has 5 elements and the overlap is empty, yet
    the validator answers that the artifact is usable, and [convert] returns
    the artifact of the external converter without running the manual
    build. *)
Lemma pytho_3_scenario_is_accepted :
  let metadata := _parse_control_metadata sample_control (input_path sample_deb) in
  let expected : gset string := list_to_set (mapped_dependencies metadata) in
  _parse_pkginfo_dependencies (Ok pytho_artifact) = Ok ["pytho.3"] /\
  size expected = 5%nat /\
  size (expected ∩ list_to_set (List.map _dependency_base ["pytho.3"])) = 0%nat /\
  _debtap_output_is_usable (Ok pytho_artifact) metadata <> Ok false /\
  (let '(r, st) := convert sample_env true empty_state in
   match r with
   | Ok res => used_debtap res = true /\ ManualBuild ∉ trace st
   | Raise _ => False
   end).
Proof.
  split; [vm_compute; reflexivity|].
  split; [vm_compute; reflexivity|].
  split; [vm_compute; reflexivity|].
  split; [vm_compute; discriminate|].
  assert (E : convert sample_env true empty_state =
              (Ok {| metadata := _parse_control_metadata sample_control (input_path sample_deb);
                     package_path := "/tmp/deb2arch-k3x9/debtap-output/app-1.0-1-x86_64.pkg.tar.zst";
                     temp_dir := "/tmp/deb2arch-k3x9"; used_debtap := true |},
               {| dirs := {["/tmp/deb2arch-k3x9"]};
                  trace := [ExtractDebMembers; ReadControlFile; Debtap;
                            ValidateDebtapOutput] |}))
    by (vm_compute; reflexivity).
  rewrite E. clear E. cbn [used_debtap trace]. split; [reflexivity|].
  rewrite !not_elem_of_cons.
  repeat (split; [intros H; discriminate H|]). apply not_elem_of_nil.
Qed.

(** C4 (amended). When the external converter produces an artifact that
    declares the single dependency [pytho.3], the trust validator accepts it
    whatever the expected set is (so also for an expected set of size 5 with
    overlap 0), and the orchestrator returns the artifact of the external
    converter, marked as such, without running the manual build. *)
Theorem convert_keeps_debtap_artifact_declaring_pytho_3
    (env : Environment) (st : State) (w p text : string) (members : string * string) :
  validate_input_file (input env) = Ok "deb" ->
  mkdtemp env = Ok w ->
  deb_members env = Ok members ->
  control_file env = Ok text ->
  debtap_installed env = true ->
  debtap_run env = Ok p ->
  _parse_pkginfo_dependencies (debtap_artifact env) = Ok ["pytho.3"] ->
  let metadata := _parse_control_metadata text (input_path (input env)) in
  _debtap_output_is_usable (debtap_artifact env) metadata = Ok true /\
  convert env true st =
    (Ok {| metadata := metadata; package_path := p; temp_dir := w; used_debtap := true |},
     {| dirs := dirs st ∪ {[w]};
        trace := trace st ++ [ExtractDebMembers; ReadControlFile; Debtap;
                              ValidateDebtapOutput] |}).
Proof.
  intros Hv Hw Hm Hc Hi Hr Hd metadata.
  assert (Hu : _debtap_output_is_usable (debtap_artifact env) metadata = Ok true).
  { unfold _debtap_output_is_usable. rewrite Hd, pytho_3_is_usable. reflexivity. }
  split; [exact Hu|].
  unfold convert. rewrite Hv. unfold create_temp_dir. rewrite Hw.
  unfold convert_body. cbn [String.eqb Ascii.eqb Bool.eqb].
  unfold run at 1. rewrite Hm. unfold run at 1. rewrite Hc.
  unfold try_debtap. rewrite Hi. cbn [andb].
  unfold run at 1. rewrite Hr. unfold run at 1. fold metadata. rewrite Hu.
  cbn [dirs trace]. rewrite <- !List.app_assoc. reflexivity.
Qed.

Lemma convert_keeps_debtap_artifact_declaring_pytho_3_witness :
  let metadata := _parse_control_metadata sample_control (input_path sample_deb) in
  _debtap_output_is_usable (Ok pytho_artifact) metadata = Ok true /\
  convert sample_env true empty_state =
    (Ok {| metadata := metadata;
           package_path := "/tmp/deb2arch-k3x9/debtap-output/app-1.0-1-x86_64.pkg.tar.zst";
           temp_dir := "/tmp/deb2arch-k3x9"; used_debtap := true |},
     {| dirs := dirs empty_state ∪ {["/tmp/deb2arch-k3x9"]};
        trace := trace empty_state ++ [ExtractDebMembers; ReadControlFile; Debtap;
                                       ValidateDebtapOutput] |}).
Proof.
  apply (convert_keeps_debtap_artifact_declaring_pytho_3 sample_env empty_state
           "/tmp/deb2arch-k3x9"
           "/tmp/deb2arch-k3x9/debtap-output/app-1.0-1-x86_64.pkg.tar.zst"
           sample_control
           ("/tmp/deb2arch-k3x9/control.tar.xz", "/tmp/deb2arch-k3x9/data.tar.xz"));
    reflexivity.
Defined.

(** ** The scratch workspace of [convert] *)

Ltac case_outcomes :=
  repeat match goal with
         | |- context [match ?x with _ => _ end] => destruct x eqn:?
         | |- context [if ?b then _ else _] => destruct b eqn:?
         end.

Lemma try_debtap_effects (env : Environment) (metadata : PackageMetadata)
    (prefer_debtap : bool) (st : State) :
  exists added : list step,
    dirs (snd (try_debtap env metadata prefer_debtap st)) = dirs st /\
    trace (snd (try_debtap env metadata prefer_debtap st)) = trace st ++ added /\
    Forall (fun s => is_Rmtree s = false) added.
Proof.
  unfold try_debtap, run.
  case_outcomes; cbn [fst snd dirs trace]; rewrite <- ?List.app_assoc;
    (eexists; split; [reflexivity|]; split;
     [try reflexivity; symmetry; apply List.app_nil_r|repeat constructor]).
Qed.

(** The [try] block never touches the scratch directories, never runs a
    removal, and hands its workspace to the result. *)
Lemma convert_body_effects (env : Environment) (input_format w : string)
    (prefer_debtap : bool) (st : State) :
  exists added : list step,
    dirs (snd (convert_body env input_format w prefer_debtap st)) = dirs st /\
    trace (snd (convert_body env input_format w prefer_debtap st)) = trace st ++ added /\
    Forall (fun s => is_Rmtree s = false) added /\
    forall res, fst (convert_body env input_format w prefer_debtap st) = Ok res ->
                temp_dir res = w.
Proof.
  unfold convert_body, run.
  destruct (String.eqb input_format "tarball").
  { destruct (tarball_build env); cbn [fst snd dirs trace];
      (exists [TarballBuild]; split; [reflexivity|]; split; [reflexivity|]; split;
       [repeat constructor|]); [intros res [= <-]; reflexivity|discriminate]. }
  destruct (deb_members env) as [ms|e]; cbn [fst snd dirs trace].
  2:{ exists [ExtractDebMembers]. split; [reflexivity|]. split; [reflexivity|].
      split; [repeat constructor|discriminate]. }
  destruct (control_file env) as [text|e]; cbn [fst snd dirs trace].
  2:{ exists [ExtractDebMembers; ReadControlFile]. split; [reflexivity|].
      split; [rewrite <- List.app_assoc; reflexivity|].
      split; [repeat constructor|discriminate]. }
  set (metadata := _parse_control_metadata text (input_path (input env))).
  set (st2 := {| dirs := dirs st; trace := (trace st ++ [ExtractDebMembers]) ++ [ReadControlFile] |}).
  destruct (try_debtap_effects env metadata prefer_debtap st2) as (added & Hd & Ht & Hrm).
  destruct (try_debtap env metadata prefer_debtap st2) as [[[[path|] used]|e] st3];
    cbn [fst snd dirs trace] in *.
  - exists ([ExtractDebMembers; ReadControlFile] ++ added).
    split; [exact Hd|]. split; [rewrite Ht; cbn [st2 trace]; rewrite <- !List.app_assoc; reflexivity|].
    split; [apply Forall_app; split; [repeat constructor|exact Hrm]|].
    intros res [= <-]. reflexivity.
  - destruct (manual_build env) as [path|e]; cbn [fst snd dirs trace];
      (exists ([ExtractDebMembers; ReadControlFile] ++ added ++ [ManualBuild]);
       split; [exact Hd|]; split;
       [rewrite Ht; cbn [st2 trace]; rewrite <- !List.app_assoc; reflexivity|];
       split; [apply Forall_app; split; [repeat constructor|];
               apply Forall_app; split; [exact Hrm|repeat constructor]|]).
    + intros res [= <-]. reflexivity.
    + discriminate.
  - exists ([ExtractDebMembers; ReadControlFile] ++ added).
    split; [exact Hd|]. split; [rewrite Ht; cbn [st2 trace]; rewrite <- !List.app_assoc; reflexivity|].
    split; [apply Forall_app; split; [repeat constructor|exact Hrm]|discriminate].
Qed.

(** C8 (as stated, refuted). The manual build fails after the workspace is
    created and the removal of the workspace fails too: [convert] raises, and
    the scratch directory still exists, neither released nor handed to the
    caller. *)
Lemma convert_failure_can_leave_workspace :
  let '(r, st) := convert failing_env true empty_state in
  r = Raise (ConversionError "makepkg failed during manual conversion") /\
  mkdtemp failing_env = Ok "/tmp/deb2arch-k3x9" /\
  "/tmp/deb2arch-k3x9" ∈ dirs st.
Proof.
  assert (E : convert failing_env true empty_state =
              (Raise (ConversionError "makepkg failed during manual conversion"),
               {| dirs := {["/tmp/deb2arch-k3x9"]};
                  trace := [ExtractDebMembers; ReadControlFile; ManualBuild;
                            Rmtree "/tmp/deb2arch-k3x9"] |}))
    by (vm_compute; reflexivity).
  rewrite E. clear E. cbn [dirs].
  split; [reflexivity|]. split; [reflexivity|].
  apply elem_of_singleton. reflexivity.
Qed.

(** C8 (amended). When [convert] returns, the workspace it created exists,
    is the one named in the result, and no removal was run: the caller owns
    it.  When [convert] raises before the workspace is created, nothing
    changes.  When it raises after the workspace is created, [cleanup_dir] is
    run on the workspace as the last step before the exception propagates;
    the directory is then gone, unless the removal itself failed, in which
    case that failure is swallowed and the directory is still there. *)
Theorem convert_workspace_contract (env : Environment) (prefer_debtap : bool) (st : State) :
  match convert env prefer_debtap st with
  | (Ok res, st') =>
      mkdtemp env = Ok (temp_dir res) /\
      dirs st' = dirs st ∪ {[temp_dir res]} /\
      exists added, trace st' = trace st ++ added /\
                    Forall (fun s => is_Rmtree s = false) added
  | (Raise e, st') =>
      match validate_input_file (input env), mkdtemp env with
      | Ok _, Ok w =>
          (exists added, trace st' = trace st ++ added ++ [Rmtree w] /\
                         Forall (fun s => is_Rmtree s = false) added) /\
          match rmtree_error env with
          | None => dirs st' = (dirs st ∪ {[w]}) ∖ {[w]}
          | Some _ => dirs st' = dirs st ∪ {[w]}
          end
      | _, _ => st' = st
      end
  end.
Proof.
  unfold convert.
  destruct (validate_input_file (input env)) as [fmt|e0]; [|reflexivity].
  unfold create_temp_dir.
  destruct (mkdtemp env) as [w|e1]; [|reflexivity].
  set (st1 := {| dirs := dirs st ∪ {[w]}; trace := trace st |}).
  destruct (convert_body_effects env fmt w prefer_debtap st1)
    as (added & Hd & Ht & Hrm & Hw).
  destruct (convert_body env fmt w prefer_debtap st1) as [[res|e] st2];
    cbn [fst snd] in *.
  - rewrite (Hw res eq_refl). split; [reflexivity|]. split; [exact Hd|].
    exists added. split; [exact Ht|exact Hrm].
  - unfold cleanup_dir, shutil_rmtree. cbn [dirs trace].
    rewrite bool_decide_eq_true_2.
    2:{ rewrite Hd. cbn [st1 dirs]. apply elem_of_union_r, elem_of_singleton. reflexivity. }
    destruct (rmtree_error env) as [e2|]; cbn [snd dirs trace].
    + split; [|exact Hd]. exists added. rewrite Ht, <- List.app_assoc.
      split; [reflexivity|exact Hrm].
    + split; [|rewrite Hd; reflexivity]. exists added. rewrite Ht, <- List.app_assoc.
      split; [reflexivity|exact Hrm].
Qed.

(** ** Dependency mapping *)

Lemma elem_of_sorted_set (l : list string) (x : string) :
  x ∈ sorted_set l <-> x ∈ l.
Proof.
  unfold sorted_set. rewrite merge_sort_Permutation, elem_of_elements.
  apply elem_of_list_to_set.
Qed.

Lemma sorted_set_sorted (l : list string) :
  StronglySorted String.le (sorted_set l) /\ NoDup (sorted_set l).
Proof.
  unfold sorted_set. split.
  - apply StronglySorted_merge_sort; apply _.
  - rewrite merge_sort_Permutation. apply NoDup_elements.
Qed.

Lemma foldl_map_dependencies_step (deps mapped unmapped : list string) :
  foldl map_dependencies_step (mapped, unmapped) deps =
    (mapped ++ omap (fun d => class_target (classify_dependency d)) deps,
     unmapped ++ filter (fun d => class_target (classify_dependency d) = None) deps).
Proof.
  revert mapped unmapped. induction deps as [|d deps IH]; intros mapped unmapped.
  - cbn. rewrite !List.app_nil_r. reflexivity.
  - cbn [foldl]. unfold map_dependencies_step at 2.
    destruct (class_target (classify_dependency d)) as [t|] eqn:E; rewrite IH.
    + cbn [omap list_omap]. rewrite E. rewrite filter_cons_False by congruence.
      rewrite <- List.app_assoc. reflexivity.
    + cbn [omap list_omap]. rewrite E. rewrite filter_cons_True by assumption.
      rewrite <- List.app_assoc. reflexivity.
Qed.

Lemma class_target_None (c : dep_class) : class_target c = None <-> c = Unmapped.
Proof. destruct c; cbn; split; congruence. Qed.

Lemma map_dependencies_members (deps : list string) :
  (forall t, t ∈ fst (_map_dependencies deps) <->
             exists d, d ∈ deps /\ class_target (classify_dependency d) = Some t) /\
  (forall d, d ∈ snd (_map_dependencies deps) <->
             d ∈ deps /\ classify_dependency d = Unmapped).
Proof.
  unfold _map_dependencies. rewrite foldl_map_dependencies_step.
  cbn [fst snd app]. split.
  - intros t. rewrite elem_of_sorted_set, list_elem_of_omap. reflexivity.
  - intros d. rewrite elem_of_sorted_set, list_elem_of_filter, class_target_None.
    tauto.
Qed.

(** The mapped list holds target names, so it can also share a name with
    the unmapped list. *)
Example map_dependencies_shared_name :
  _map_dependencies ["adduser"; "shadow"] = (["shadow"], ["shadow"]).
Proof. reflexivity. Qed.

(** C1 (as stated, refuted). For the dependency list [libc6] the mapper
    returns mapped [glibc] and nothing unmapped: the union of the two lists
    is not the input set. *)
Lemma map_dependencies_union_is_not_the_input :
  _map_dependencies ["libc6"] = (["glibc"], []) /\
  (list_to_set (fst (_map_dependencies ["libc6"]) ++ snd (_map_dependencies ["libc6"]))
     : gset string) <> list_to_set ["libc6"].
Proof.
  split; [reflexivity|].
  change (_map_dependencies ["libc6"]) with (["glibc"], @nil string).
  cbn [fst snd app]. intros H.
  assert (Hin : "glibc" ∈ (list_to_set ["libc6"] : gset string)).
  { rewrite <- H. apply elem_of_list_to_set. constructor. }
  apply elem_of_list_to_set in Hin.
  apply elem_of_cons in Hin as [Hin|Hin]; [discriminate Hin|inversion Hin].
Qed.

(** C1 (amended). For every dependency list, the mapped and the unmapped
    list are each sorted by code point and free of duplicates; the unmapped
    list holds exactly the input names that are classified unmapped, and the
    mapped list holds exactly the target names of the input names that are
    classified mapped. *)
Theorem map_dependencies_sorted_and_classified (deps : list string) :
  (StronglySorted String.le (fst (_map_dependencies deps)) /\
   NoDup (fst (_map_dependencies deps))) /\
  (StronglySorted String.le (snd (_map_dependencies deps)) /\
   NoDup (snd (_map_dependencies deps))) /\
  (forall t, t ∈ fst (_map_dependencies deps) <->
             exists d, d ∈ deps /\ class_target (classify_dependency d) = Some t) /\
  (forall d, d ∈ snd (_map_dependencies deps) <->
             d ∈ deps /\ classify_dependency d = Unmapped).
Proof.
  split; [|split; [|exact (map_dependencies_members deps)]].
  - unfold _map_dependencies. destruct (foldl _ _ _). apply sorted_set_sorted.
  - unfold _map_dependencies. destruct (foldl _ _ _). apply sorted_set_sorted.
Qed.

Lemma lower_char_idem (c : ascii) :
  PyStr.lower_char (PyStr.lower_char c) = PyStr.lower_char c.
Proof. destruct c as [[] [] [] [] [] [] [] []]; reflexivity. Qed.

Lemma lower_idem (s : string) : PyStr.lower (PyStr.lower s) = PyStr.lower s.
Proof.
  unfold PyStr.lower. induction s as [|c r IH]; cbn; [reflexivity|].
  rewrite lower_char_idem, IH. reflexivity.
Qed.

Lemma table_targets_lower (key target : string) :
  DEBIAN_TO_ARCH_DEP_MAP !! key = Some target -> PyStr.lower target = target.
Proof.
  intros H. apply elem_of_list_to_map_2 in H.
  assert (Hall : Forall (fun kv => PyStr.lower (snd kv) = snd kv)
                   DEBIAN_TO_ARCH_DEP_MAP_items) by (repeat constructor).
  rewrite Forall_forall in Hall. exact (Hall _ H).
Qed.

Lemma passthrough_lower (x : string) :
  x ∈ PASSTHROUGH_DEPENDENCIES -> PyStr.lower x = x.
Proof.
  intros H. apply elem_of_list_to_set in H.
  assert (Hall : Forall (fun y => PyStr.lower y = y) PASSTHROUGH_DEPENDENCIES_items)
    by (repeat constructor).
  rewrite Forall_forall in Hall. exact (Hall _ H).
Qed.

Lemma class_target_lower (d t : string) :
  class_target (classify_dependency d) = Some t -> PyStr.lower t = t.
Proof.
  unfold classify_dependency.
  destruct (DEBIAN_TO_ARCH_DEP_MAP !! PyStr.lower d) as [t'|] eqn:E.
  { intros [= <-]. exact (table_targets_lower _ _ E). }
  destruct (decide (PyStr.lower d ∈ PASSTHROUGH_DEPENDENCIES)) as [Hin|_].
  { intros [= <-]. apply lower_idem. }
  destruct (decide (_ ∈ PASSTHROUGH_DEPENDENCIES)) as [Hin|_]; [|discriminate].
  intros [= <-]. exact (passthrough_lower _ Hin).
Qed.

(** C10. Dependency mapping classifies each name by its lower-cased form:
    a name is classified exactly as its lower-cased form is; a name
    classified as mapped contributes its target name, which is lower-case, to
    the mapped list; a name classified as unmapped is reported in the
    unmapped list in its original spelling. *)
Theorem classify_dependency_by_lower_case (d : string) :
  classify_dependency d = classify_dependency (PyStr.lower d) /\
  (forall t : string,
      class_target (classify_dependency d) = Some t ->
      PyStr.lower t = t /\
      forall deps : list string, d ∈ deps -> t ∈ fst (_map_dependencies deps)) /\
  (classify_dependency d = Unmapped ->
   forall deps : list string, d ∈ deps -> d ∈ snd (_map_dependencies deps)).
Proof.
  split; [|split].
  - unfold classify_dependency. rewrite lower_idem. reflexivity.
  - intros t Ht. split; [exact (class_target_lower d t Ht)|].
    intros deps Hd. apply (map_dependencies_members deps). eauto.
  - intros Hu deps Hd. apply (map_dependencies_members deps). auto.
Qed.

Example classify_dependency_examples :
  classify_dependency "LibC6" = ExactHit "glibc" /\
  classify_dependency "Bash" = PassthroughHit "bash" /\
  classify_dependency "ZSTD1" = SonameHit "zstd" /\
  classify_dependency "Util-Linux-2" = SonameHit "util-linux" /\
  classify_dependency "LibFoo2" = Unmapped /\
  _map_dependencies ["LibFoo2"; "Bash"; "LibC6"] = (["bash"; "glibc"], ["LibFoo2"]).
Proof. repeat split; reflexivity. Qed.

(** ** Paths: the string test of [_is_safe_tar_target] and components *)

Lemma prefix_cons_inv (a b : ascii) (s t : string) :
  String.prefix (String a s) (String b t) = true -> a = b /\ String.prefix s t = true.
Proof.
  cbn. destruct (ascii_dec a b) as [->|]; [auto|discriminate].
Qed.

Lemma append_cons (c : ascii) (s t : string) :
  String c s +:+ t = String c (s +:+ t).
Proof. reflexivity. Qed.

Lemma append_nil (t : string) : "" +:+ t = t.
Proof. reflexivity. Qed.

Lemma prefix_append_r (s t x : string) :
  String.prefix s t = true -> String.prefix s (t +:+ x) = true.
Proof.
  revert t. induction s as [|a s IH]; intros t.
  { intros _. destruct (t +:+ x); reflexivity. }
  destruct t as [|b t]; [discriminate|].
  intros [-> H]%prefix_cons_inv. rewrite append_cons. cbn [String.prefix].
  destruct (ascii_dec b b); [auto|contradiction].
Qed.

Lemma append_assoc (a b c : string) : (a +:+ b) +:+ c = a +:+ (b +:+ c).
Proof.
  induction a as [|x a IH]; [reflexivity|].
  rewrite !append_cons, IH. reflexivity.
Qed.

Lemma join_cat_sep (l : list string) :
  l <> [] -> PyStr.join "/" l +:+ "/" = cat_sep l.
Proof.
  induction l as [|c r IH]; [contradiction|]. intros _.
  destruct r as [|d r'].
  - reflexivity.
  - change (PyStr.join "/" (c :: d :: r')) with (c +:+ "/" +:+ PyStr.join "/" (d :: r')).
    change (cat_sep (c :: d :: r')) with (c +:+ "/" +:+ cat_sep (d :: r')).
    rewrite !append_assoc, IH by discriminate. reflexivity.
Qed.

(** A component followed by the separator, as a prefix: the component is
    found again. *)
Lemma prefix_component (a b x y : string) :
  no_slash a = true -> no_slash b = true ->
  String.prefix (a +:+ "/" +:+ x) (b +:+ "/" +:+ y) = true ->
  a = b /\ String.prefix x y = true.
Proof.
  revert b. induction a as [|c a IH]; intros b Ha Hb H.
  - destruct b as [|d b].
    + cbn in H. destruct (ascii_dec "/" "/"); [auto|contradiction].
    + apply prefix_cons_inv in H as [<- _]. cbn in Hb. discriminate Hb.
  - cbn in Ha. apply andb_true_iff in Ha as [Hc Ha].
    destruct b as [|d b].
    + apply prefix_cons_inv in H as [-> _]. cbn in Hc. discriminate Hc.
    + cbn in Hb. apply andb_true_iff in Hb as [_ Hb].
      apply prefix_cons_inv in H as [-> H].
      destruct (IH b Ha Hb H) as [-> Hxy]. auto.
Qed.

Lemma cat_sep_prefix (r t : list string) :
  Forall (fun c => no_slash c = true) r ->
  Forall (fun c => no_slash c = true) t ->
  String.prefix (cat_sep r) (cat_sep t) = true -> r `prefix_of` t.
Proof.
  intros Hr. revert t. induction Hr as [|a r Ha _ IH]; intros t Ht H.
  - apply prefix_nil.
  - destruct Ht as [|b t Hb Ht].
    + cbn in H. destruct a; discriminate H.
    + cbn [cat_sep] in H. apply prefix_component in H as [-> H]; [|assumption..].
      apply prefix_cons, IH; assumption.
Qed.

(** The string test of [_is_safe_tar_target] implies containment of the
    components. *)
Lemma startswith_root_inside (root target : list string) :
  Forall (fun c => no_slash c = true) root ->
  Forall (fun c => no_slash c = true) target ->
  PyStr.startswith (str_resolved target) (str_resolved root +:+ "/") = true ->
  root `prefix_of` target.
Proof.
  intros Hr Ht H. destruct root as [|a r]; [apply prefix_nil|].
  unfold PyStr.startswith, str_resolved in H.
  rewrite !append_cons, !append_nil in H.
  apply prefix_cons_inv in H as [_ H].
  rewrite join_cat_sep in H by discriminate.
  destruct target as [|b t].
  - change (cat_sep (a :: r)) with (a +:+ "/" +:+ cat_sep r) in H.
    destruct a; discriminate H.
  - apply cat_sep_prefix; [assumption..|].
    rewrite <- (join_cat_sep (b :: t)) by discriminate.
    apply prefix_append_r. exact H.
Qed.

(** Components that come from parsing and resolving have no separator. *)

Lemma split_on_no_sep (p : ascii -> bool) (s : string) :
  Forall (fun c => PyStr.forallb (fun x => negb (p x)) c = true) (PyStr.split_on p s).
Proof.
  induction s as [|c r IH]; cbn.
  - repeat constructor.
  - destruct (p c) eqn:E.
    + constructor; [reflexivity|exact IH].
    + destruct (PyStr.split_on p r) as [|x l].
      * repeat constructor. cbn. rewrite E. reflexivity.
      * inversion IH as [|? ? Hx Hl]; subst. constructor; [|exact Hl].
        cbn. rewrite E. exact Hx.
Qed.

Lemma Forall_filter_bool {A : Type} (P : A -> Prop) (f : A -> bool) (l : list A) :
  Forall P l -> Forall P (List.filter f l).
Proof.
  induction 1 as [|x l Hx _ IH]; cbn; [constructor|].
  destruct (f x); [constructor; assumption|assumption].
Qed.

Lemma Path_of_no_slash (s : string) :
  Forall (fun c => no_slash c = true) (parts (Path_of s)).
Proof.
  cbn [Path_of parts]. apply Forall_filter_bool.
  eapply Forall_impl; [apply (split_on_no_sep (Ascii.eqb "/"))|].
  intros c Hc. unfold no_slash. eapply forallb_impl; [|exact Hc].
  intros x Hx. cbn in Hx |- *. rewrite Ascii.eqb_sym. exact Hx.
Qed.

Lemma Forall_removelast {A : Type} (P : A -> Prop) (l : list A) :
  Forall P l -> Forall P (removelast l).
Proof.
  induction 1 as [|x l Hx Hl IH]; cbn; [constructor|].
  destruct l; [constructor|]. constructor; assumption.
Qed.

Lemma resolve_parts_no_slash (start ps : list string) :
  Forall (fun c => no_slash c = true) start ->
  Forall (fun c => no_slash c = true) ps ->
  Forall (fun c => no_slash c = true) (resolve_parts start ps).
Proof.
  intros Hs Hp. revert start Hs. unfold resolve_parts.
  induction Hp as [|p ps Hp _ IH]; intros start Hs; cbn [foldl]; [exact Hs|].
  apply IH. destruct (String.eqb p "..").
  - apply Forall_removelast, Hs.
  - apply Forall_app. split; [exact Hs|]. repeat constructor. exact Hp.
Qed.

Lemma getcwd_no_slash (fs : FS) : Forall (fun c => no_slash c = true) (getcwd fs).
Proof.
  unfold getcwd, resolve. apply resolve_parts_no_slash.
  - destruct (anchored _); constructor.
  - apply Path_of_no_slash.
Qed.

Lemma resolve_no_slash (fs : FS) (p : Path) :
  Forall (fun c => no_slash c = true) (parts p) ->
  Forall (fun c => no_slash c = true) (resolve (getcwd fs) p).
Proof.
  intros H. unfold resolve. apply resolve_parts_no_slash; [|exact H].
  destruct (anchored p); [constructor|apply getcwd_no_slash].
Qed.

Lemma Path_join_no_slash (p : Path) (s : string) :
  Forall (fun c => no_slash c = true) (parts p) ->
  Forall (fun c => no_slash c = true) (parts (Path_join p s)).
Proof.
  intros H. unfold Path_join. destruct (anchored (Path_of s)).
  - apply Path_of_no_slash.
  - cbn [parts]. apply Forall_app. split; [exact H|apply Path_of_no_slash].
Qed.

(** A target that passes [_is_safe_tar_target] lies in the destination
    root. *)
Lemma safe_target_inside (fs : FS) (destination member_name : string) :
  _is_safe_tar_target (getcwd fs) (Path_of destination) member_name = true ->
  resolve (getcwd fs) (Path_of destination)
    `prefix_of` member_target (getcwd fs) (Path_of destination) member_name.
Proof.
  unfold _is_safe_tar_target. intros [H|H]%orb_true_iff.
  - apply startswith_root_inside; [| |exact H].
    + apply resolve_no_slash, Path_of_no_slash.
    + unfold member_target. apply resolve_no_slash, Path_join_no_slash, Path_of_no_slash.
  - apply bool_decide_eq_true in H. rewrite H. reflexivity.
Qed.

(** ** The file system: what each operation may change *)

Lemma confined_refl (root : list string) (fs : FS) : confined root fs fs.
Proof. repeat split. intros p _. left. reflexivity. Qed.

Lemma confined_trans (root : list string) (fs1 fs2 fs3 : FS) :
  confined root fs1 fs2 -> confined root fs2 fs3 -> confined root fs1 fs3.
Proof.
  intros (Hc1 & Hu1 & H1) (Hc2 & Hu2 & H2). split; [congruence|]. split; [congruence|].
  intros p Hp. destruct (H1 p Hp) as [E1|(N1 & (m1 & D1) & P1)];
    destruct (H2 p Hp) as [E2|(N2 & (m2 & D2) & P2)].
  - left. congruence.
  - right. rewrite <- E1. eauto.
  - right. split; [exact N1|]. split; [|exact P1]. exists m1. congruence.
  - congruence.
Qed.

Lemma comparable_prefix (q' q root : list string) :
  q' `prefix_of` q -> comparable q root -> comparable q' root.
Proof.
  intros Hq [H|H].
  - left. etransitivity; eassumption.
  - destruct (prefix_weak_total q' root q Hq H); [left|right]; assumption.
Qed.

Lemma lookup_node_None (fs : FS) (p : list string) :
  lookup_node fs p = None -> tree fs !! p = None.
Proof. destruct p; [discriminate|]. cbn. auto. Qed.

(** Replacing the node at [q] is confined when [q] is in the root, and
    also when [q] is a missing ancestor of the root that becomes a
    directory. *)
Lemma insert_confined (root q : list string) (n : node) (fs : FS) :
  root `prefix_of` q \/
  (q `prefix_of` root /\ tree fs !! q = None /\ exists m, n = Dir m) ->
  confined root fs (set_tree fs (<[q := n]> (tree fs))).
Proof.
  intros H. split; [reflexivity|]. split; [reflexivity|].
  intros p Hp. cbn [set_tree tree].
  destruct (decide (q = p)) as [->|Hne].
  - destruct H as [H|(Hq & Hn & m & ->)]; [contradiction|].
    right. split; [exact Hn|]. split; [|exact Hq].
    exists m. apply lookup_insert_eq.
  - left. apply lookup_insert_ne. exact Hne.
Qed.

Lemma os_mkdir_confined (root q : list string) (fs : FS) :
  comparable q root -> confined root fs (snd (os_mkdir q fs)).
Proof.
  intros Hq. unfold os_mkdir.
  destruct (lookup_node fs q) eqn:E; [apply confined_refl|].
  destruct (lookup_node fs (parent q)) as [[]|]; cbn [snd]; try apply confined_refl.
  apply insert_confined. destruct Hq as [Hq|Hq]; [right|left; exact Hq].
  split; [exact Hq|]. split; [exact (lookup_node_None _ _ E)|eauto].
Qed.

Lemma mkdir_exist_ok_state (q : list string) (fs : FS) :
  snd (mkdir_exist_ok q fs) = snd (os_mkdir q fs).
Proof.
  unfold mkdir_exist_ok. destruct (os_mkdir q fs) as [[[]|[]] fs']; try reflexivity.
  cbn [snd]. destruct (String.eqb _ _); [reflexivity|].
  destruct (is_dir fs' q); reflexivity.
Qed.

Lemma bind_confined {A B : Type} (root : list string) (m : M A) (k : A -> M B) (fs : FS) :
  confined root fs (snd (m fs)) ->
  (forall a fs1, confined root fs fs1 -> confined root fs1 (snd (k a fs1))) ->
  confined root fs (snd (bind m k fs)).
Proof.
  intros Hm Hk. unfold bind. destruct (m fs) as [[a|e] fs1]; cbn [snd] in *.
  - eapply confined_trans; [exact Hm|]. apply Hk. exact Hm.
  - exact Hm.
Qed.

Lemma mkdir_parents_rev_confined (root : list string) (rp : list string) (fs : FS) :
  comparable (rev rp) root -> confined root fs (snd (mkdir_parents_rev rp fs)).
Proof.
  revert fs. induction rp as [|x rp IH]; intros fs Hq.
  - cbn [mkdir_parents_rev]. pose proof (os_mkdir_confined root (rev []) fs Hq) as H.
    destruct (os_mkdir (rev []) fs) as [[[]|[]] fs']; cbn [snd] in *; try exact H.
    destruct (String.eqb _ _); [exact H|]. destruct (is_dir fs' _); exact H.
  - cbn [mkdir_parents_rev]. pose proof (os_mkdir_confined root _ fs Hq) as H.
    destruct (os_mkdir (rev (x :: rp)) fs) as [[[]|[]] fs']; cbn [snd] in *; try exact H.
    destruct (String.eqb _ _).
    + eapply confined_trans; [exact H|]. apply bind_confined.
      * apply IH. eapply comparable_prefix; [|exact Hq].
        cbn [rev]. apply prefix_app_r. reflexivity.
      * intros _ fs1 _. rewrite mkdir_exist_ok_state. apply os_mkdir_confined, Hq.
    + destruct (is_dir fs' _); exact H.
Qed.

Lemma mkdir_parents_confined (root q : list string) (fs : FS) :
  comparable q root -> confined root fs (snd (mkdir_parents q fs)).
Proof.
  intros H. unfold mkdir_parents. apply mkdir_parents_rev_confined.
  rewrite rev_involutive. exact H.
Qed.

Lemma write_file_confined (root t : list string) (data : string) (fs : FS) :
  root `prefix_of` t -> confined root fs (snd (write_file t data fs)).
Proof.
  intros Ht. unfold write_file.
  destruct (lookup_node fs t) as [[]|]; cbn [snd]; try apply confined_refl.
  - apply insert_confined. left. exact Ht.
  - destruct (lookup_node fs (parent t)) as [[]|]; cbn [snd]; try apply confined_refl.
    apply insert_confined. left. exact Ht.
Qed.

Lemma chmod_confined (root t : list string) (new_mode : Z) (fs : FS) :
  root `prefix_of` t -> confined root fs (snd (chmod t new_mode fs)).
Proof.
  intros Ht. unfold chmod. destruct t as [|c t]; [apply confined_refl|].
  destruct (lookup_node fs (c :: t)) as [[]|]; cbn [snd]; try apply confined_refl;
    apply insert_confined; left; exact Ht.
Qed.

Lemma apply_mode_confined (root t : list string) (member : TarInfo) (fs : FS) :
  root `prefix_of` t -> confined root fs (snd (apply_mode t member fs)).
Proof.
  intros Ht. unfold apply_mode. destruct (_ =? _)%Z.
  - apply confined_refl.
  - apply chmod_confined, Ht.
Qed.

(** ** Safe extraction stays in the destination root *)

Lemma getcwd_confined (root : list string) (fs fs' : FS) :
  confined root fs fs' -> getcwd fs' = getcwd fs.
Proof. intros (Hc & _). unfold getcwd. rewrite Hc. reflexivity. Qed.

Lemma parent_comparable (root t : list string) :
  root `prefix_of` t -> comparable (parent t) root.
Proof.
  intros [k ->]. unfold parent. destruct k as [|x k] using rev_ind.
  - rewrite List.app_nil_r. left. destruct root as [|y root] using rev_ind.
    + reflexivity.
    + rewrite removelast_last. apply prefix_app_r. reflexivity.
  - right. rewrite List.app_assoc, removelast_last. apply prefix_app_r. reflexivity.
Qed.

Lemma extract_regular_file_confined (destination : string) (member : TarInfo) (fs : FS) :
  _is_safe_tar_target (getcwd fs) (Path_of destination) (name member) = true ->
  confined (resolve (getcwd fs) (Path_of destination)) fs
    (snd (_extract_regular_file member (Path_of destination) fs)).
Proof.
  intros Hsafe. apply safe_target_inside in Hsafe.
  unfold _extract_regular_file. apply bind_confined.
  - apply mkdir_parents_confined, parent_comparable, Hsafe.
  - intros _ fs1 _. destruct (extractfile member); [|apply confined_refl].
    apply bind_confined.
    + apply write_file_confined, Hsafe.
    + intros _ fs2 _. apply apply_mode_confined, Hsafe.
Qed.

Lemma extract_member_confined (destination : string) (member : TarInfo) (fs : FS) :
  confined (resolve (getcwd fs) (Path_of destination)) fs
    (snd (extract_member (Path_of destination) member fs)).
Proof.
  unfold extract_member.
  destruct (_is_safe_tar_target _ _ _) eqn:Hsafe; cbn [negb]; [|apply confined_refl].
  destruct (is_skipped_type member); [apply confined_refl|].
  destruct (isdir member).
  - pose proof (safe_target_inside _ _ _ Hsafe) as Hin. apply bind_confined.
    + apply mkdir_parents_confined. right. exact Hin.
    + intros _ fs1 _. apply apply_mode_confined, Hin.
  - destruct (isfile member); [|apply confined_refl].
    apply extract_regular_file_confined, Hsafe.
Qed.








Example safe_extract_tar_traversal :
  let fs := {| cwd := "/home/u"; umask := 18; tree := {[ ["tmp"] := Dir 511 ]} |} in
  let member n := {| name := n; type := REGTYPE; mode := 420; content := "x" |} in
  fst (safe_extract_tar [member "ok"; member "../evil"; member "later"]
         (Path_of "/tmp/ws/pkgroot") fs)
  = Raise (ConversionError "Unsafe archive path detected: ../evil") /\
  fst (safe_extract_tar [member "../pkgroot-evil/x"] (Path_of "/tmp/ws/pkgroot") fs)
  = Raise (ConversionError "Unsafe archive path detected: ../pkgroot-evil/x") /\
  fst (safe_extract_tar [member "/etc/passwd"; member "a/../b"] (Path_of "/tmp/ws/pkgroot") fs)
  = Ok tt.
Proof. repeat split; reflexivity. Qed.

(** ** Safe extraction skips links, devices and FIFOs *)

Lemma isdir_not_skipped (m : TarInfo) : isdir m = true -> is_skipped_type m = false.
Proof.
  unfold isdir, is_skipped_type, issym, islnk, isdev, ischr, isblk, isfifo.
  intros H%Ascii.eqb_eq. rewrite H. reflexivity.
Qed.

Lemma isfile_not_skipped (m : TarInfo) : isfile m = true -> is_skipped_type m = false.
Proof.
  unfold isfile, isreg, is_skipped_type, issym, islnk, isdev, ischr, isblk, isfifo.
  cbn [List.existsb]. rewrite orb_false_r.
  intros H. repeat apply orb_true_iff in H as [H|H];
    apply Ascii.eqb_eq in H; rewrite H; reflexivity.
Qed.

Lemma lookup_node_insert (fs : FS) (q : list string) (n : node) :
  q <> [] -> lookup_node (set_tree fs (<[q := n]> (tree fs))) q = Some n.
Proof.
  intros H. destruct q; [contradiction|]. cbn. apply lookup_insert_eq.
Qed.

Lemma lookup_node_Some_nonroot (fs : FS) (q : list string) :
  lookup_node fs q = None -> q <> [].
Proof. destruct q; [discriminate|]. intros _. discriminate. Qed.

Lemma os_mkdir_ok (q : list string) (fs fs' : FS) :
  os_mkdir q fs = (Ok tt, fs') -> is_dir fs' q = true.
Proof.
  unfold os_mkdir. destruct (lookup_node fs q) eqn:E; [discriminate|].
  destruct (lookup_node fs (parent q)) as [[]|]; try discriminate.
  intros [= <-]. unfold is_dir.
  rewrite lookup_node_insert by exact (lookup_node_Some_nonroot _ _ E). reflexivity.
Qed.

Lemma mkdir_exist_ok_ok (q : list string) (fs fs' : FS) :
  mkdir_exist_ok q fs = (Ok tt, fs') -> is_dir fs' q = true.
Proof.
  unfold mkdir_exist_ok. destruct (os_mkdir q fs) as [[[]|[]] fs1] eqn:E; try discriminate.
  - intros [= <-]. exact (os_mkdir_ok _ _ _ E).
  - destruct (String.eqb _ _); [discriminate|].
    destruct (is_dir fs1 q) eqn:D; [|discriminate]. intros [= <-]. exact D.
Qed.

Lemma mkdir_parents_rev_ok (rp : list string) (fs fs' : FS) :
  mkdir_parents_rev rp fs = (Ok tt, fs') -> is_dir fs' (rev rp) = true.
Proof.
  destruct rp as [|x rp]; cbn [mkdir_parents_rev].
  - destruct (os_mkdir (rev []) fs) as [[[]|[]] fs1] eqn:E; try discriminate.
    destruct (String.eqb _ _); [discriminate|].
    destruct (is_dir fs1 _) eqn:D; [|discriminate].
    intros H. injection H as H. subst fs1. exact D.
  - destruct (os_mkdir (rev (x :: rp)) fs) as [[[]|[]] fs1] eqn:E; try discriminate.
    + intros H. injection H as H. subst fs1. exact (os_mkdir_ok _ _ _ E).
    + destruct (String.eqb _ _).
      * unfold bind. destruct (mkdir_parents_rev rp fs1) as [[[]|] fs2]; [|discriminate].
        apply mkdir_exist_ok_ok.
      * destruct (is_dir fs1 _) eqn:D; [|discriminate].
        intros H. injection H as H. subst fs1. exact D.
Qed.

Lemma mkdir_parents_ok (q : list string) (fs fs' : FS) :
  mkdir_parents q fs = (Ok tt, fs') -> is_dir fs' q = true.
Proof.
  unfold mkdir_parents. intros H. apply mkdir_parents_rev_ok in H.
  rewrite rev_involutive in H. exact H.
Qed.

Lemma apply_mode_dir (t : list string) (member : TarInfo) (fs fs' : FS) :
  is_dir fs t = true ->
  apply_mode t member fs = (Ok tt, fs') ->
  exists md, lookup_node fs' t = Some (Dir md) /\
             (Z.land (mode member) 511 <> 0%Z -> md = Z.land (mode member) 511).
Proof.
  unfold is_dir, apply_mode. intros Hd.
  destruct (lookup_node fs t) as [[md0|]|] eqn:E; try discriminate.
  destruct (Z.eqb_spec (Z.land (mode member) 511) 0) as [Hz|Hz].
  - intros [= <-]. exists md0. split; [exact E|]. intros H. contradiction.
  - unfold chmod. destruct t as [|c t]; [discriminate|]. rewrite E.
    intros [= <-]. eexists. split; [apply lookup_node_insert; discriminate|reflexivity].
Qed.

Lemma apply_mode_file (t : list string) (member : TarInfo) (data : string) (md0 : Z)
    (fs fs' : FS) :
  lookup_node fs t = Some (File data md0) ->
  apply_mode t member fs = (Ok tt, fs') ->
  exists md, lookup_node fs' t = Some (File data md) /\
             (Z.land (mode member) 511 <> 0%Z -> md = Z.land (mode member) 511).
Proof.
  unfold apply_mode. intros E.
  destruct (Z.eqb_spec (Z.land (mode member) 511) 0) as [Hz|Hz].
  - intros [= <-]. exists md0. split; [exact E|]. intros H. contradiction.
  - unfold chmod. destruct t as [|c t]; [discriminate|]. rewrite E.
    intros [= <-]. eexists. split; [apply lookup_node_insert; discriminate|reflexivity].
Qed.

Lemma write_file_ok (t : list string) (data : string) (fs fs' : FS) :
  write_file t data fs = (Ok tt, fs') ->
  exists md, lookup_node fs' t = Some (File data md).
Proof.
  unfold write_file. destruct (lookup_node fs t) as [[]|] eqn:E; try discriminate.
  - intros [= <-]. eexists. apply lookup_node_insert.
    destruct t; [discriminate E|discriminate].
  - destruct (lookup_node fs (parent t)) as [[]|]; try discriminate.
    intros [= <-]. eexists. apply lookup_node_insert.
    exact (lookup_node_Some_nonroot _ _ E).
Qed.

Lemma extract_member_skipped (destination : Path) (member : TarInfo) (fs : FS) :
  is_skipped_type member = true ->
  extract_member destination member fs =
    (if _is_safe_tar_target (getcwd fs) destination (name member) then Ok tt
     else Raise (ConversionError ("Unsafe archive path detected: " +:+ name member)),
     fs).
Proof.
  intros H. unfold extract_member. rewrite H.
  destruct (_is_safe_tar_target _ _ _); reflexivity.
Qed.

Lemma for_each_extract_filter (destination : string) (members : list TarInfo)
    (cwd0 : list string) (fs : FS) :
  getcwd fs = cwd0 ->
  for_each (extract_member (Path_of destination))
    (List.filter
       (fun m => negb (is_skipped_type m
                       && _is_safe_tar_target cwd0 (Path_of destination) (name m)))
       members) fs
  = for_each (extract_member (Path_of destination)) members fs.
Proof.
  revert fs. induction members as [|m members IH]; intros fs Hcwd; [reflexivity|].
  cbn [List.filter].
  destruct (is_skipped_type m) eqn:Hs; cbn [andb].
  - destruct (_is_safe_tar_target cwd0 (Path_of destination) (name m)) eqn:Hsafe;
      cbn [negb for_each]; unfold bind;
      rewrite (extract_member_skipped _ _ _ Hs), Hcwd, Hsafe.
    + apply IH, Hcwd.
    + reflexivity.
  - cbn [negb for_each]. unfold bind.
    pose proof (extract_member_confined destination m fs) as Hc.
    destruct (extract_member (Path_of destination) m fs) as [[[]|e] fs1];
      cbn [snd] in Hc; [|reflexivity].
    apply IH. rewrite (getcwd_confined _ _ _ Hc). exact Hcwd.
Qed.

(** C6. Safe extraction never materializes a symbolic link, hard link,
    device node or FIFO: such a member leaves the file system as it is (it is
    skipped, or its unsafe name aborts the extraction); dropping the skipped
    members from the archive does not change what extraction does; and when a
    member is extracted, it is as a directory or as a regular file with the
    bytes of the member, whose mode is the mode of the member masked to
    [0o777] when that is not zero; any other kind of member changes
    nothing. *)
Theorem safe_extract_tar_materializes_files_and_directories_only
    (destination : string) (fs : FS) :
  let dest := Path_of destination in
  (forall member : TarInfo,
      is_skipped_type member = true ->
      extract_member dest member fs =
        (if _is_safe_tar_target (getcwd fs) dest (name member) then Ok tt
         else Raise (ConversionError ("Unsafe archive path detected: " +:+ name member)),
         fs)) /\
  (forall members : list TarInfo,
      safe_extract_tar
        (List.filter
           (fun m => negb (is_skipped_type m
                           && _is_safe_tar_target (getcwd fs) dest (name m)))
           members) dest fs
      = safe_extract_tar members dest fs) /\
  (forall (member : TarInfo) (fs' : FS),
      extract_member dest member fs = (Ok tt, fs') ->
      let target := member_target (getcwd fs) dest (name member) in
      (isdir member = true ->
       exists md, lookup_node fs' target = Some (Dir md) /\
                  (Z.land (mode member) 511 <> 0%Z -> md = Z.land (mode member) 511)) /\
      (isdir member = false -> isfile member = true ->
       exists md, lookup_node fs' target = Some (File (content member) md) /\
                  (Z.land (mode member) 511 <> 0%Z -> md = Z.land (mode member) 511)) /\
      (isdir member = false -> isfile member = false -> fs' = fs)).
Proof.
  intros dest. split; [|split].
  - intros member Hs. apply extract_member_skipped, Hs.
  - intros members. unfold safe_extract_tar, bind.
    pose proof (mkdir_parents_confined _ _ fs
                  (or_introl (reflexivity (resolve (getcwd fs) dest)))) as Hc.
    destruct (mkdir_parents (resolve (getcwd fs) dest) fs) as [[[]|e] fs0];
      cbn [snd] in Hc; [|reflexivity].
    apply for_each_extract_filter. exact (getcwd_confined _ _ _ Hc).
  - intros member fs' H target. unfold extract_member in H. fold target in H.
    destruct (_is_safe_tar_target _ _ _); cbn [negb] in H; [|discriminate H].
    destruct (is_skipped_type member) eqn:Hs.
    { injection H as <-. split; [|split].
      - intros Hd. rewrite (isdir_not_skipped _ Hd) in Hs. discriminate Hs.
      - intros _ Hf. rewrite (isfile_not_skipped _ Hf) in Hs. discriminate Hs.
      - reflexivity. }
    destruct (isdir member) eqn:Hd.
    { split; [|split]; [intros _|discriminate..].
      unfold bind in H.
      destruct (mkdir_parents target fs) as [[[]|e] fs1] eqn:E; [|discriminate H].
      exact (apply_mode_dir _ _ _ _ (mkdir_parents_ok _ _ _ E) H). }
    destruct (isfile member) eqn:Hf.
    { split; [discriminate|]. split; [intros _ _|discriminate].
      unfold _extract_regular_file, bind in H. fold dest target in H.
      destruct (mkdir_parents (parent target) fs) as [[[]|e] fs1]; [|discriminate H].
      unfold extractfile in H. unfold isfile in Hf. rewrite Hf in H.
      destruct (write_file target (content member) fs1) as [[[]|e] fs2] eqn:E;
        [|discriminate H].
      destruct (write_file_ok _ _ _ _ E) as [md0 Hmd0].
      exact (apply_mode_file _ _ _ _ _ _ Hmd0 H). }
    injection H as <-. split; [discriminate|]. split; [discriminate|reflexivity].
Qed.

Example safe_extract_tar_skips :
  let fs := {| cwd := "/"; umask := 18; tree := {[ ["tmp"] := Dir 511 ]} |} in
  let member n t := {| name := n; type := t; mode := 3565; content := "x" |} in
  let fs' := snd (safe_extract_tar
                    [member "bin/sh" SYMTYPE; member "hard" LNKTYPE;
                     member "dev/null" CHRTYPE; member "dev/sda" BLKTYPE;
                     member "pipe" FIFOTYPE; member "app" REGTYPE]
                    (Path_of "/tmp/root") fs) in
  tree fs' !! ["tmp"; "root"; "app"] = Some (File "x" 493) /\
  tree fs' !! ["tmp"; "root"; "bin"] = None /\
  tree fs' !! ["tmp"; "root"; "hard"] = None /\
  tree fs' !! ["tmp"; "root"; "dev"] = None /\
  tree fs' !! ["tmp"; "root"; "pipe"] = None /\
  size (tree fs') = 3%nat.
Proof. vm_compute. repeat split. Qed.

(** * Further properties of the code *)

(** ** More facts about the [str] primitives *)

Lemma existsb_forallb_false (P Q : ascii -> bool) (s : string) :
  (forall c, P c = true -> Q c = false) ->
  PyStr.forallb P s = true -> PyStr.existsb Q s = false.
Proof.
  intros HPQ. induction s as [|c r IH]; cbn; [reflexivity|].
  intros [Hc Hr]%andb_true_iff. rewrite (HPQ c Hc), (IH Hr). reflexivity.
Qed.

Lemma prefix_empty (s : string) : String.prefix "" s = true.
Proof. destruct s; reflexivity. Qed.

Lemma prefix_two (a : ascii) (s : string) :
  String.prefix (String a (String a "")) s =
  match s with
  | String c r => Ascii.eqb c a && PyStr.head_is a r
  | "" => false
  end.
Proof.
  destruct s as [|c r]; [reflexivity|]. cbn [String.prefix].
  destruct (ascii_dec a c) as [<-|Hne].
  - rewrite Ascii.eqb_refl. destruct r as [|d r']; [reflexivity|].
    cbn [String.prefix PyStr.head_is andb].
    destruct (ascii_dec a d) as [<-|Hne].
    + rewrite Ascii.eqb_refl, prefix_empty. reflexivity.
    + symmetry. apply Ascii.eqb_neq. congruence.
  - assert (E : Ascii.eqb c a = false) by (apply Ascii.eqb_neq; congruence).
    rewrite E. reflexivity.
Qed.

Lemma no_run_contains (a : ascii) (s : string) :
  PyStr.no_run a s = true -> PyStr.contains s (String a (String a "")) = false.
Proof.
  induction s as [|c r IH]; [reflexivity|].
  cbn [PyStr.no_run PyStr.contains]. intros [Hc Hr]%andb_true_iff.
  rewrite prefix_two, (IH Hr). apply negb_true_iff in Hc. rewrite Hc. reflexivity.
Qed.

Lemma head_kept_startswith (a : ascii) (s : string) :
  PyStr.head_kept (Ascii.eqb a) s = true -> PyStr.startswith s (String a "") = false.
Proof.
  destruct s as [|c r]; [reflexivity|]. cbn. intros H%negb_true_iff.
  destruct (ascii_dec a c) as [<-|]; [|reflexivity].
  rewrite Ascii.eqb_refl in H. discriminate H.
Qed.

Lemma rstrip_fixed_endswith (a : ascii) (s : string) :
  PyStr.rstrip (Ascii.eqb a) s = s -> PyStr.endswith s (String a "") = false.
Proof.
  induction s as [|c r IH]; [reflexivity|].
  cbn [PyStr.rstrip PyStr.endswith].
  destruct (PyStr.is_empty (PyStr.rstrip (Ascii.eqb a) r) && Ascii.eqb a c) eqn:E;
    [discriminate|].
  intros [= Hr]. rewrite (IH Hr), orb_false_r. rewrite Hr in E.
  destruct r as [|d r'].
  - cbn in E |- *. rewrite Ascii.eqb_sym, E. reflexivity.
  - cbn. destruct (Ascii.eqb c a); reflexivity.
Qed.

(** A character map that respects the stripped class commutes with
    stripping. *)
Lemma lstrip_map (p : ascii -> bool) (f : ascii -> ascii) (s : string) :
  (forall c, p (f c) = p c) ->
  PyStr.lstrip p (PyStr.map f s) = PyStr.map f (PyStr.lstrip p s).
Proof.
  intros Hf. induction s as [|c r IH]; [reflexivity|].
  cbn [PyStr.map PyStr.lstrip]. rewrite Hf. destruct (p c); [exact IH|reflexivity].
Qed.

Lemma is_empty_map (f : ascii -> ascii) (s : string) :
  PyStr.is_empty (PyStr.map f s) = PyStr.is_empty s.
Proof. destruct s; reflexivity. Qed.

Lemma rstrip_map (p : ascii -> bool) (f : ascii -> ascii) (s : string) :
  (forall c, p (f c) = p c) ->
  PyStr.rstrip p (PyStr.map f s) = PyStr.map f (PyStr.rstrip p s).
Proof.
  intros Hf. induction s as [|c r IH]; [reflexivity|].
  cbn [PyStr.map PyStr.rstrip]. rewrite IH, is_empty_map, Hf.
  destruct (PyStr.is_empty (PyStr.rstrip p r) && p c); reflexivity.
Qed.

Lemma strip_map (p : ascii -> bool) (f : ascii -> ascii) (s : string) :
  (forall c, p (f c) = p c) ->
  PyStr.strip p (PyStr.map f s) = PyStr.map f (PyStr.strip p s).
Proof.
  intros Hf. unfold PyStr.strip. rewrite lstrip_map, rstrip_map by exact Hf. reflexivity.
Qed.

Lemma forallb_strip (P p : ascii -> bool) (s : string) :
  PyStr.forallb P s = true -> PyStr.forallb P (PyStr.strip p s) = true.
Proof. intros H. unfold PyStr.strip. apply forallb_rstrip, forallb_lstrip, H. Qed.

Lemma forallb_map_impl (P Q : ascii -> bool) (f : ascii -> ascii) (s : string) :
  (forall c, P c = true -> Q (f c) = true) ->
  PyStr.forallb P s = true -> PyStr.forallb Q (PyStr.map f s) = true.
Proof.
  intros Hf. induction s as [|c r IH]; cbn; [reflexivity|].
  intros [Hc Hr]%andb_true_iff. rewrite (Hf c Hc), (IH Hr). reflexivity.
Qed.

Lemma forallb_break_fst (P p : ascii -> bool) (s : string) :
  PyStr.forallb P s = true -> PyStr.forallb P (fst (PyStr.break p s)) = true.
Proof.
  induction s as [|c r IH]; cbn; [reflexivity|].
  intros [Hc Hr]%andb_true_iff. destruct (p c); [reflexivity|].
  specialize (IH Hr). destruct (PyStr.break p r) as [a b]. cbn in *.
  rewrite Hc, IH. reflexivity.
Qed.

Lemma break_fst_avoids (p : ascii -> bool) (s : string) :
  PyStr.forallb (fun c => negb (p c)) (fst (PyStr.break p s)) = true.
Proof.
  induction s as [|c r IH]; cbn; [reflexivity|].
  destruct (p c) eqn:E; [reflexivity|].
  destruct (PyStr.break p r) as [a b]. cbn in *. rewrite E, IH. reflexivity.
Qed.


(** ** Sanitizers *)

(** X1. What [sanitize_pkgver] returns is never empty, consists of
    characters of [a-zA-Z0-9.+_] only (so it has no hyphen, colon, slash or
    space, as the docstring requires of a pkgver), has no two dots in a row
    and no dot at either end. *)
Theorem sanitize_pkgver_is_pkgver_safe (v : string) :
  let r := sanitize_pkgver v in
  PyStr.is_empty r = false /\
  PyStr.forallb pkgver_char r = true /\
  PyStr.existsb (fun c => Ascii.eqb c "-" || Ascii.eqb c ":" || Ascii.eqb c "/"
                          || Ascii.eqb c " ") r = false /\
  PyStr.contains r ".." = false /\
  PyStr.startswith r "." = false /\
  PyStr.endswith r "." = false.
Proof.
  intros r. destruct (sanitize_pkgver_clean v) as (Hall & Hrun & Hhead & Htail & Hne).
  fold r in Hall, Hrun, Hhead, Htail, Hne.
  split; [exact Hne|]. split; [exact Hall|]. split; [|split; [|split]].
  - eapply existsb_forallb_false; [|exact Hall]. intros c Hc.
    rewrite (pkgver_char_not "-" eq_refl c Hc), (pkgver_char_not ":" eq_refl c Hc),
      (pkgver_char_not "/" eq_refl c Hc), (pkgver_char_not " " eq_refl c Hc).
    reflexivity.
  - apply no_run_contains, Hrun.
  - apply head_kept_startswith, Hhead.
  - apply rstrip_fixed_endswith, Htail.
Qed.

Lemma pkgname_char_lower (c : ascii) :
  pkgname_char c = true -> pkgname_out_char (PyStr.lower_char c) = true.
Proof. destruct c as [[] [] [] [] [] [] [] []]; vm_compute; congruence. Qed.

Lemma pkgname_out_char_fixed (c : ascii) :
  pkgname_out_char c = true -> pkgname_char c = true /\ PyStr.lower_char c = c.
Proof. destruct c as [[] [] [] [] [] [] [] []]; vm_compute; intuition congruence. Qed.

Lemma pkgname_edge_lower (c : ascii) :
  pkgname_edge (PyStr.lower_char c) = pkgname_edge c.
Proof. destruct c as [[] [] [] [] [] [] [] []]; reflexivity. Qed.

Lemma sanitize_package_name_facts (name : string) :
  let r := sanitize_package_name name in
  PyStr.is_empty r = false /\
  PyStr.forallb pkgname_out_char r = true /\
  PyStr.strip pkgname_edge r = r /\
  sanitize_package_name r = r.
Proof.
  assert (Hclean : forall s,
             PyStr.is_empty s = false ->
             PyStr.forallb pkgname_out_char s = true ->
             PyStr.strip pkgname_edge s = s ->
             sanitize_package_name s = s).
  { intros s Hne Hall Hstrip. unfold sanitize_package_name.
    change (fun c => Ascii.eqb c "-" || Ascii.eqb c "." || Ascii.eqb c "_")%char
      with pkgname_edge.
    unfold PyStr.sub_class.
    rewrite (map_fixed pkgname_out_char _ s); [|intros c Hc|exact Hall].
    2:{ destruct (pkgname_out_char_fixed c Hc) as [-> _]. reflexivity. }
    rewrite Hstrip. unfold PyStr.lower.
    rewrite (map_fixed pkgname_out_char _ s); [|intros c Hc|exact Hall].
    2:{ exact (proj2 (pkgname_out_char_fixed c Hc)). }
    unfold PyStr.or_else. rewrite Hne. reflexivity. }
  intros r.
  assert (H : PyStr.is_empty r = false /\
              PyStr.forallb pkgname_out_char r = true /\
              PyStr.strip pkgname_edge r = r).
  { unfold r, sanitize_package_name.
    change (fun c => Ascii.eqb c "-" || Ascii.eqb c "." || Ascii.eqb c "_")%char
      with pkgname_edge.
    set (x := PyStr.sub_class _ _ _).
    assert (Hx : PyStr.forallb pkgname_char x = true).
    { apply forallb_map. intros c. destruct (pkgname_char c) eqn:E; [exact E|reflexivity]. }
    clearbody x. unfold PyStr.or_else.
    destruct (PyStr.is_empty (PyStr.lower (PyStr.strip pkgname_edge x))) eqn:E.
    { repeat split; reflexivity. }
    split; [exact E|]. split.
    - unfold PyStr.lower. eapply forallb_map_impl; [exact pkgname_char_lower|].
      apply forallb_strip, Hx.
    - unfold PyStr.lower. rewrite strip_map by exact pkgname_edge_lower.
      rewrite strip_idem. reflexivity. }
  destruct H as (Hne & Hall & Hstrip).
  repeat split; try assumption. apply Hclean; assumption.
Qed.

(** X2. What [sanitize_package_name] returns is never empty, consists of
    characters of [a-z0-9@._+-] only, has none of [-], [.], [_] at either
    end, and is left unchanged by [sanitize_package_name]. *)
Theorem sanitize_package_name_is_token (name : string) :
  let r := sanitize_package_name name in
  PyStr.is_empty r = false /\
  PyStr.forallb pkgname_out_char r = true /\
  PyStr.strip pkgname_edge r = r /\
  sanitize_package_name r = r.
Proof. exact (sanitize_package_name_facts name). Qed.

Lemma relation_char_lower (c : ascii) :
  is_relation_char (PyStr.lower_char c) = is_relation_char c.
Proof. destruct c as [[] [] [] [] [] [] [] []]; reflexivity. Qed.

Lemma isspace_lower (c : ascii) : PyStr.isspace (PyStr.lower_char c) = PyStr.isspace c.
Proof. destruct c as [[] [] [] [] [] [] [] []]; reflexivity. Qed.

(** X17. The base name that [_dependency_base] returns holds none of the
    relation characters [<], [>], [=], is lower-case and has no white space
    at either end. *)
Theorem dependency_base_is_a_bare_name (dep : string) :
  let base := _dependency_base dep in
  PyStr.existsb is_relation_char base = false /\
  PyStr.lower base = base /\
  PyStr.strip PyStr.isspace base = base.
Proof.
  intros base. unfold base, _dependency_base. split; [|split].
  - apply (existsb_forallb_false (fun c => negb (is_relation_char c))).
    + intros c Hc. apply negb_true_iff in Hc. exact Hc.
    + unfold PyStr.lower. eapply forallb_map_impl.
      2:{ apply forallb_strip, break_fst_avoids. }
      intros c Hc. cbn. rewrite relation_char_lower. exact Hc.
  - apply lower_idem.
  - unfold PyStr.lower. rewrite strip_map by exact isspace_lower.
    rewrite strip_idem. reflexivity.
Qed.

(** ** Parsing the Depends field *)

Lemma forallb_append (P : ascii -> bool) (s t : string) :
  PyStr.forallb P (s +:+ t) = PyStr.forallb P s && PyStr.forallb P t.
Proof.
  induction s as [|c r IH]; [reflexivity|].
  rewrite append_cons. cbn [PyStr.forallb]. rewrite IH, andb_assoc. reflexivity.
Qed.

Lemma forallb_sub_paren_groups (P : ascii -> bool) (s : string) :
  PyStr.forallb P s = true ->
  forall (skipping : bool) (pending : string),
    PyStr.forallb P pending = true ->
    PyStr.forallb P (sub_paren_groups skipping pending s) = true.
Proof.
  induction s as [|c r IH]; intros Hs skipping pending Hp; [exact Hp|].
  cbn [PyStr.forallb] in Hs. apply andb_true_iff in Hs as [Hc Hr].
  cbn [sub_paren_groups]. destruct skipping.
  - apply IH; [exact Hr|reflexivity].
  - destruct (Ascii.eqb c "(" && closes_paren r).
    + apply IH; [exact Hr|reflexivity].
    + destruct (PyStr.isspace c).
      * apply IH; [exact Hr|]. rewrite forallb_append, Hp. cbn. rewrite Hc. reflexivity.
      * rewrite forallb_append, Hp. cbn [PyStr.forallb andb]. rewrite Hc.
        apply IH; [exact Hr|reflexivity].
Qed.

Lemma nth0_split1 (sep : ascii) (s : string) :
  List.nth 0 (PyStr.split1 sep s) "" = fst (PyStr.break (Ascii.eqb sep) s).
Proof.
  unfold PyStr.split1. destruct (PyStr.break (Ascii.eqb sep) s) as [a [b|]]; reflexivity.
Qed.

(** The name that one comma-separated item of the field yields. *)
Lemma depends_item_name (P : ascii -> bool) (item : string) :
  PyStr.forallb P item = true ->
  PyStr.forallb P
    (PyStr.strip PyStr.isspace
       (fst (PyStr.break (Ascii.eqb ":")
          (PyStr.strip PyStr.isspace
             (sub_paren_groups false ""
                (PyStr.strip PyStr.isspace
                   (fst (PyStr.break (Ascii.eqb "|") item)))))))) = true.
Proof.
  intros H. apply forallb_strip, forallb_break_fst, forallb_strip.
  apply forallb_sub_paren_groups; [|reflexivity].
  apply forallb_strip, forallb_break_fst, H.
Qed.

(** X3. Every name that [parse_debian_depends] returns is non-empty, has no
    white space at either end and holds none of the separators [,], [|] and
    [:]; an empty field gives no name. *)
Theorem parse_debian_depends_names (depends_field : string) :
  parse_debian_depends "" = [] /\
  Forall
    (fun d =>
       PyStr.is_empty d = false /\
       PyStr.strip PyStr.isspace d = d /\
       PyStr.existsb (fun c => Ascii.eqb c "," || Ascii.eqb c "|" || Ascii.eqb c ":") d
       = false)
    (parse_debian_depends depends_field).
Proof.
  split; [reflexivity|].
  unfold parse_debian_depends. destruct (PyStr.is_empty depends_field); [constructor|].
  apply List.Forall_flat_map.
  pose proof (split_on_no_sep (Ascii.eqb ",") depends_field) as Hsplit.
  eapply Forall_impl; [exact Hsplit|]. intros raw Hraw. cbn beta.
  destruct (PyStr.is_empty (PyStr.strip PyStr.isspace raw)); [constructor|].
  rewrite !nth0_split1.
  set (item := PyStr.strip PyStr.isspace raw).
  assert (Hitem : PyStr.forallb (fun x => negb (Ascii.eqb "," x)) item = true)
    by (apply forallb_strip, Hraw).
  set (alt := PyStr.strip PyStr.isspace (fst (PyStr.break (Ascii.eqb "|") item))).
  set (nv := PyStr.strip PyStr.isspace (sub_paren_groups false "" alt)).
  set (na := PyStr.strip PyStr.isspace (fst (PyStr.break (Ascii.eqb ":") nv))).
  destruct (PyStr.is_empty na) eqn:Hne; [constructor|].
  constructor; [|constructor].
  split; [exact Hne|]. split; [apply strip_idem|].
  assert (Hcomma : PyStr.forallb (fun x => negb (Ascii.eqb "," x)) na = true).
  { unfold na, nv, alt. apply depends_item_name, Hitem. }
  assert (Hbar : PyStr.forallb (fun x => negb (Ascii.eqb "|" x)) na = true).
  { unfold na, nv. apply forallb_strip, forallb_break_fst, forallb_strip.
    apply forallb_sub_paren_groups; [|reflexivity].
    unfold alt. apply forallb_strip, break_fst_avoids. }
  assert (Hcolon : PyStr.forallb (fun x => negb (Ascii.eqb ":" x)) na = true).
  { unfold na. apply forallb_strip, break_fst_avoids. }
  clearbody na. clear -Hcomma Hbar Hcolon.
  induction na as [|c r IH]; [reflexivity|].
  cbn [PyStr.forallb PyStr.existsb] in *.
  apply andb_true_iff in Hcomma as [H1 Hcomma], Hbar as [H2 Hbar], Hcolon as [H3 Hcolon].
  rewrite (IH Hcomma Hbar Hcolon), orb_false_r.
  apply negb_true_iff in H1, H2, H3.
  rewrite (Ascii.eqb_sym c ","), (Ascii.eqb_sym c "|"), (Ascii.eqb_sym c ":"), H1, H2, H3.
  reflexivity.
Qed.

(** ** More on dependency mapping and display *)

Lemma same_set_elem (l1 l2 : list string) :
  (list_to_set l1 : gset string) = list_to_set l2 -> forall x, x ∈ l1 <-> x ∈ l2.
Proof.
  intros H x. rewrite <- !(elem_of_list_to_set (C := gset string)), H. reflexivity.
Qed.

Lemma sorted_set_ext (l1 l2 : list string) :
  (forall x, x ∈ l1 <-> x ∈ l2) -> sorted_set l1 = sorted_set l2.
Proof.
  intros H. unfold sorted_set. f_equal. f_equal.
  apply leibniz_equiv. intros x. rewrite !elem_of_list_to_set. apply H.
Qed.

(** X8. The result of [_map_dependencies] depends only on the set of the
    input names: neither their order nor their repetition matters. *)
Theorem map_dependencies_depends_on_the_set_only (l1 l2 : list string) :
  (list_to_set l1 : gset string) = list_to_set l2 ->
  _map_dependencies l1 = _map_dependencies l2.
Proof.
  intros H. pose proof (same_set_elem l1 l2 H) as Hel.
  unfold _map_dependencies. rewrite !foldl_map_dependencies_step. cbn [app].
  f_equal; apply sorted_set_ext; intros x.
  - rewrite !list_elem_of_omap. split; intros (d & Hd & E); exists d; split;
      try exact E; apply Hel, Hd.
  - rewrite !list_elem_of_filter, Hel. reflexivity.
Qed.

Lemma map_dependencies_depends_on_the_set_only_witness :
  _map_dependencies ["zstd1"; "libc6"; "foo"; "libc6"] =
  _map_dependencies ["foo"; "libc6"; "zstd1"].
Proof.
  apply (map_dependencies_depends_on_the_set_only
           ["zstd1"; "libc6"; "foo"; "libc6"] ["foo"; "libc6"; "zstd1"]).
  vm_compute. reflexivity.
Defined.

(** X9. A name whose lower-cased form is a key of the exact table is
    translated by the table: its target is in the mapped list and the name is
    not in the unmapped list, whatever else the passthrough set or the soname
    heuristic would say. *)
Theorem exact_table_names_are_mapped (deps : list string) (d target : string) :
  DEBIAN_TO_ARCH_DEP_MAP !! PyStr.lower d = Some target ->
  d ∈ deps ->
  target ∈ fst (_map_dependencies deps) /\ d ∉ snd (_map_dependencies deps).
Proof.
  intros Ht Hd.
  assert (Hc : classify_dependency d = ExactHit target).
  { unfold classify_dependency. rewrite Ht. reflexivity. }
  destruct (map_dependencies_members deps) as [Hm Hu]. split.
  - apply Hm. exists d. rewrite Hc. auto.
  - intros Hin. apply Hu in Hin as [_ E]. rewrite Hc in E. discriminate E.
Qed.

Lemma exact_table_names_are_mapped_witness :
  "ca-certificates" ∈ fst (_map_dependencies ["Ca-Certificates"; "bash"]) /\
  "Ca-Certificates" ∉ snd (_map_dependencies ["Ca-Certificates"; "bash"]).
Proof.
  apply (exact_table_names_are_mapped ["Ca-Certificates"; "bash"]
           "Ca-Certificates" "ca-certificates").
  - vm_compute. reflexivity.
  - apply elem_of_cons. left. reflexivity.
Defined.

(** X7. [format_dependency_list] shows "none" for no name, and otherwise
    depends only on the set of the names. *)
Theorem format_dependency_list_depends_on_the_set_only (l1 l2 : list string) :
  (list_to_set l1 : gset string) = list_to_set l2 ->
  format_dependency_list [] = "none" /\
  format_dependency_list l1 = format_dependency_list l2.
Proof.
  intros H. split; [reflexivity|].
  pose proof (same_set_elem l1 l2 H) as Hel. unfold format_dependency_list.
  rewrite (sorted_set_ext l1 l2 Hel).
  destruct l1 as [|x l1], l2 as [|y l2]; try reflexivity.
  - exfalso. assert (Hy : y ∈ y :: l2) by (apply elem_of_cons; auto).
    apply Hel in Hy. inversion Hy.
  - exfalso. assert (Hx : x ∈ x :: l1) by (apply elem_of_cons; auto).
    apply Hel in Hx. inversion Hx.
Qed.

Lemma format_dependency_list_depends_on_the_set_only_witness :
  format_dependency_list [] = "none" /\
  format_dependency_list ["gtk3"; "glibc"; "gtk3"] = format_dependency_list ["glibc"; "gtk3"].
Proof.
  apply (format_dependency_list_depends_on_the_set_only
           ["gtk3"; "glibc"; "gtk3"] ["glibc"; "gtk3"]).
  vm_compute. reflexivity.
Defined.

(** ** Architecture and metadata records *)

Lemma strip_lower_idem (x : string) :
  PyStr.lower (PyStr.strip PyStr.isspace (PyStr.lower (PyStr.strip PyStr.isspace x)))
  = PyStr.lower (PyStr.strip PyStr.isspace x).
Proof.
  unfold PyStr.lower at 2. rewrite strip_map by exact isspace_lower.
  rewrite strip_idem. apply lower_idem.
Qed.

Lemma map_architecture_cases (deb_arch : string) :
  let arch := PyStr.lower (PyStr.strip PyStr.isspace deb_arch) in
  (_map_architecture deb_arch = PyStr.or_else arch "any" /\
   _map_architecture arch = PyStr.or_else arch "any") \/
  _map_architecture deb_arch ∈ ["any"; "x86_64"; "aarch64"; "armv7h"; "i686"].
Proof.
  intros arch. subst arch. unfold _map_architecture. cbv zeta.
  rewrite strip_lower_idem.
  set (arch := PyStr.lower (PyStr.strip PyStr.isspace deb_arch)).
  set (mapping := list_to_map _).
  destruct (mapping !! arch) as [v|] eqn:E; cbn [default].
  - right. apply elem_of_list_to_map_2 in E.
    repeat (apply elem_of_cons in E as [E|E];
            [injection E as _ ->; repeat ((apply elem_of_cons; left; reflexivity)
                                          || (apply elem_of_cons; right))|]).
    inversion E.
  - left. split; reflexivity.
Qed.

(** X10. [_map_architecture] never returns an empty string, and mapping
    its result again changes nothing. *)
Theorem map_architecture_idempotent (deb_arch : string) :
  PyStr.is_empty (_map_architecture deb_arch) = false /\
  _map_architecture (_map_architecture deb_arch) = _map_architecture deb_arch.
Proof.
  destruct (map_architecture_cases deb_arch) as [[E1 E2]|Hin].
  - rewrite E1. set (arch := PyStr.lower (PyStr.strip PyStr.isspace deb_arch)) in *.
    unfold PyStr.or_else in *. destruct (PyStr.is_empty arch) eqn:Hne.
    + split; reflexivity.
    + split; [exact Hne|exact E2].
  - repeat (apply elem_of_cons in Hin as [->|Hin]; [split; reflexivity|]).
    inversion Hin.
Qed.

Lemma sanitize_package_name_fixed (name : string) :
  PyStr.is_empty (sanitize_package_name name) = false /\
  sanitize_package_name (sanitize_package_name name) = sanitize_package_name name.
Proof.
  destruct (sanitize_package_name_facts name) as (H1 & _ & _ & H4). auto.
Qed.

(** X11. Whatever the control text is, the metadata that
    [_parse_control_metadata] builds has a package name and a version that
    are already sanitized (sanitizing them again changes nothing), a
    non-empty architecture, the dependency names parsed from its raw Depends
    field, their mapping, and the format tag "deb". *)
Theorem parse_control_metadata_is_consistent (control_text : string) (source : Path) :
  let m := _parse_control_metadata control_text source in
  PyStr.is_empty (package m) = false /\
  sanitize_package_name (package m) = package m /\
  sanitize_pkgver (version m) = version m /\
  PyStr.is_empty (architecture m) = false /\
  dependencies m = parse_debian_depends (depends_raw m) /\
  (mapped_dependencies m, unmapped_dependencies m) = _map_dependencies (dependencies m) /\
  source_path m = source /\
  source_format m = "deb".
Proof.
  unfold _parse_control_metadata. cbv zeta.
  set (fields := fst (foldl control_line _ _)).
  destruct (_map_dependencies _) as [mapped unmapped] eqn:E.
  cbn [package version architecture dependencies depends_raw mapped_dependencies
       unmapped_dependencies source_path source_format].
  split; [apply sanitize_package_name_fixed|].
  split; [apply sanitize_package_name_fixed|].
  split; [apply sanitize_pkgver_clean_fixed, sanitize_pkgver_clean|].
  split; [apply map_architecture_idempotent|].
  split; [reflexivity|]. split; [symmetry; exact E|]. split; reflexivity.
Qed.

Lemma forallb_true_and (P : ascii -> bool) (c : ascii) (r : string) :
  PyStr.forallb P (String c r) = true -> P c = true /\ PyStr.forallb P r = true.
Proof. cbn. apply andb_true_iff. Qed.

Lemma splitlines_from_forallb (P : ascii -> bool) (s : string) :
  PyStr.forallb P s = true ->
  forall after_cr, Forall (fun line => PyStr.forallb P line = true)
                     (PyStr.splitlines_from after_cr s).
Proof.
  induction s as [|c r IH]; intros Hs after_cr; [constructor|].
  apply forallb_true_and in Hs as [Hc Hr]. cbn [PyStr.splitlines_from].
  destruct (after_cr && (PyStr.code c =? 10)%N); [apply IH, Hr|].
  destruct (PyStr.is_linebreak c).
  - constructor; [reflexivity|apply IH, Hr].
  - specialize (IH Hr false). destruct (PyStr.splitlines_from false r) as [|x l].
    + repeat constructor. cbn. rewrite Hc. reflexivity.
    + inversion IH as [|? ? Hx Hl]; subst. constructor; [|exact Hl].
      cbn. rewrite Hc, Hx. reflexivity.
Qed.

Lemma control_line_without_colon (fields : gmap string string) (line : string) :
  PyStr.forallb (fun c => negb (Ascii.eqb ":" c)) line = true ->
  control_line (fields, None) line = (fields, None).
Proof.
  intros H. unfold control_line.
  destruct (PyStr.is_empty (PyStr.strip PyStr.isspace line)); [reflexivity|].
  destruct line as [|c r]; rewrite (break_none (Ascii.eqb ":") _ H); reflexivity.
Qed.

(** X12. A control text without any colon declares no field: the package
    name comes from the stem of the source file name, the version is "0",
    the architecture "any", the description and the maintainer are the
    placeholders, and there is no dependency. *)
Theorem parse_control_metadata_defaults (control_text : string) (source : Path) :
  PyStr.existsb (Ascii.eqb ":") control_text = false ->
  _parse_control_metadata control_text source =
    {| package := sanitize_package_name (Path_stem source);
       version := "0";
       architecture := "any";
       description := "Converted Debian package";
       maintainer := "Unknown";
       depends_raw := "";
       dependencies := [];
       mapped_dependencies := [];
       unmapped_dependencies := [];
       source_path := source;
       source_format := "deb" |}.
Proof.
  intros H.
  assert (Hall : PyStr.forallb (fun c => negb (Ascii.eqb ":" c)) control_text = true).
  { clear -H. induction control_text as [|c r IH]; [reflexivity|].
    cbn [PyStr.existsb] in H. cbn [PyStr.forallb].
    apply orb_false_iff in H as [Hc Hr]. rewrite Hc, (IH Hr). reflexivity. }
  assert (Hfold : foldl control_line (∅, None) (PyStr.splitlines control_text)
                  = (∅, None)).
  { pose proof (splitlines_from_forallb _ _ Hall false) as Hl.
    fold (PyStr.splitlines control_text) in Hl.
    induction Hl as [|line l Hline _ IH]; [reflexivity|].
    cbn [foldl]. rewrite (control_line_without_colon ∅ line Hline). exact IH. }
  unfold _parse_control_metadata. cbv zeta. rewrite Hfold. cbn [fst].
  rewrite !lookup_empty. cbn [default]. reflexivity.
Qed.

Lemma parse_control_metadata_defaults_witness :
  _parse_control_metadata "no fields here" (Path_of "/tmp/My_App.deb") =
    {| package := "my_app"; version := "0"; architecture := "any";
       description := "Converted Debian package"; maintainer := "Unknown";
       depends_raw := ""; dependencies := []; mapped_dependencies := [];
       unmapped_dependencies := []; source_path := Path_of "/tmp/My_App.deb";
       source_format := "deb" |}.
Proof.
  apply (parse_control_metadata_defaults "no fields here" (Path_of "/tmp/My_App.deb")).
  reflexivity.
Defined.

(** X13. Whatever the file name is, the metadata inferred for a tarball has
    a sanitized package name and version, an architecture among "x86_64",
    "aarch64", "i686" and "any", no dependency at all, and the format tag
    "tarball". *)
Theorem parse_tarball_metadata_is_consistent (source : Path) :
  let m := _parse_tarball_metadata source in
  PyStr.is_empty (package m) = false /\
  sanitize_package_name (package m) = package m /\
  sanitize_pkgver (version m) = version m /\
  architecture m ∈ ["x86_64"; "aarch64"; "i686"; "any"] /\
  dependencies m = [] /\ mapped_dependencies m = [] /\ unmapped_dependencies m = [] /\
  source_format m = "tarball".
Proof.
  unfold _parse_tarball_metadata. cbv zeta.
  set (base := _strip_archive_suffix _).
  assert (Harch : guess_architecture (PyStr.lower base)
                  ∈ ["x86_64"; "aarch64"; "i686"; "any"]).
  { unfold guess_architecture.
    repeat (destruct (List.existsb _ _);
            [repeat ((apply elem_of_cons; left; reflexivity) || (apply elem_of_cons; right))|]).
    repeat ((apply elem_of_cons; left; reflexivity) || (apply elem_of_cons; right)). }
  destruct (first_index has_digit (tarball_tokens base)) as [idx|];
    cbn [package version architecture dependencies mapped_dependencies
         unmapped_dependencies source_format].
  - split; [apply sanitize_package_name_fixed|].
    split; [apply sanitize_package_name_fixed|].
    split; [apply sanitize_pkgver_clean_fixed, sanitize_pkgver_clean|].
    split; [exact Harch|]. repeat split.
  - split; [apply sanitize_package_name_fixed|].
    split; [apply sanitize_package_name_fixed|].
    split; [reflexivity|].
    split; [exact Harch|]. repeat split.
Qed.

(** ** More on the trust validator *)

(** X15. An artifact with fewer than two suspicious entries is accepted,
    whatever the expected dependencies are: every rejection rule needs at
    least two. *)
Theorem few_suspicious_entries_are_accepted
    (deps : list string) (metadata : PackageMetadata) :
  (List.length (suspicious_dependencies deps) < 2)%nat ->
  debtap_dependencies_usable deps metadata = true.
Proof.
  intros H. unfold debtap_dependencies_usable.
  destruct (bool_decide (deps = [])); [reflexivity|].
  destruct (List.length (suspicious_dependencies deps)) as [|[|n]]; [| |lia];
    cbn [Nat.leb]; rewrite !andb_false_r; reflexivity.
Qed.

Lemma few_suspicious_entries_are_accepted_witness :
  debtap_dependencies_usable ["glibc>=2.34"; "libfoo.2."; "gtk3"]
    (_parse_control_metadata sample_control (input_path sample_deb)) = true.
Proof.
  apply (few_suspicious_entries_are_accepted ["glibc>=2.34"; "libfoo.2."; "gtk3"]).
  vm_compute. lia.
Defined.

Lemma find_existsb_false {A : Type} (f : A -> bool) (l : list A) :
  List.existsb f l = false -> List.find f l = None.
Proof.
  induction l as [|x l IH]; [reflexivity|]. cbn.
  intros [Hx Hl]%orb_false_iff. rewrite Hx. exact (IH Hl).
Qed.

(** X16. An artifact that has no regular file named [.PKGINFO] or [PKGINFO]
    (after normalising the member names) declares nothing and is trusted. *)
Theorem artifact_without_pkginfo_is_trusted
    (members : list TarInfo) (metadata : PackageMetadata) :
  List.existsb
    (fun member =>
       (String.eqb (_normalize_archive_member_name (name member)) ".PKGINFO"
        || String.eqb (_normalize_archive_member_name (name member)) "PKGINFO")
       && isfile member) members = false ->
  _parse_pkginfo_dependencies (Ok members) = Ok [] /\
  _debtap_output_is_usable (Ok members) metadata = Ok true.
Proof.
  intros H. unfold _debtap_output_is_usable, _parse_pkginfo_dependencies.
  rewrite (find_existsb_false _ _ H). split; reflexivity.
Qed.

Lemma artifact_without_pkginfo_is_trusted_witness :
  let members := [ {| name := "usr/bin/app"; type := REGTYPE; mode := 493; content := "" |};
                   {| name := ".PKGINFO"; type := DIRTYPE; mode := 493; content := "" |} ] in
  _parse_pkginfo_dependencies (Ok members) = Ok [] /\
  _debtap_output_is_usable (Ok members)
    (_parse_control_metadata sample_control (input_path sample_deb)) = Ok true.
Proof.
  apply artifact_without_pkginfo_is_trusted. reflexivity.
Defined.

(** ** More on the orchestrator *)

Ltac case_hyp H :=
  repeat (match type of H with
          | context [match ?x with _ => _ end] => destruct x eqn:?
          | context [if ?b then _ else _] => destruct b eqn:?
          end; try discriminate H).

Lemma try_debtap_used (env : Environment) (metadata : PackageMetadata)
    (prefer_debtap : bool) (st st' : State) (p : option string) :
  try_debtap env metadata prefer_debtap st = (Ok (p, true), st') ->
  prefer_debtap = true /\ debtap_installed env = true /\
  exists path, p = Some path /\ debtap_run env = Ok path /\
               _debtap_output_is_usable (debtap_artifact env) metadata = Ok true.
Proof.
  unfold try_debtap, run. intros H.
  destruct prefer_debtap; [|discriminate H].
  destruct (debtap_installed env); [|discriminate H]. cbn [andb] in H.
  destruct (debtap_run env) as [path|e].
  - destruct (_debtap_output_is_usable (debtap_artifact env) metadata) as [[]|e].
    + injection H as <- _. eauto 10.
    + discriminate H.
    + destruct (is_ConversionError e); discriminate H.
  - destruct (is_ConversionError e); discriminate H.
Qed.

Lemma try_debtap_none (env : Environment) (metadata : PackageMetadata)
    (prefer_debtap : bool) (st st' : State) (used : bool) :
  try_debtap env metadata prefer_debtap st = (Ok (None, used), st') -> used = false.
Proof.
  unfold try_debtap, run. intros H. case_hyp H; injection H as ?; congruence.
Qed.

(** X18. A result that [convert] marks as produced by debtap was produced
    by debtap and passed the trust validator: debtap was preferred and
    installed, it returned the package path of the result, and
    [_debtap_output_is_usable] answered true for it against the metadata of
    the result. *)
Theorem used_debtap_means_validated
    (env : Environment) (prefer_debtap : bool) (st st' : State) (res : ConversionResult) :
  convert env prefer_debtap st = (Ok res, st') ->
  used_debtap res = true ->
  prefer_debtap = true /\ debtap_installed env = true /\
  debtap_run env = Ok (package_path res) /\
  _debtap_output_is_usable (debtap_artifact env) (metadata res) = Ok true.
Proof.
  unfold convert, create_temp_dir, convert_body. intros H Hused.
  destruct (validate_input_file (input env)) as [fmt|]; [|discriminate H].
  destruct (mkdtemp env) as [w|]; [|discriminate H].
  destruct (String.eqb fmt "tarball").
  { unfold run in H. destruct (tarball_build env); [|discriminate H].
    injection H as <- _. discriminate Hused. }
  unfold run at 1 2 in H.
  destruct (deb_members env); [|discriminate H].
  destruct (control_file env) as [text|]; [|discriminate H].
  destruct (try_debtap env _ prefer_debtap _) as [[[[path|] used]|e] st3] eqn:E;
    [| |discriminate H].
  - injection H as <- _. cbn [used_debtap package_path metadata] in *. subst used.
    destruct (try_debtap_used _ _ _ _ _ _ E) as (H1 & H2 & p & Hp & H3 & H4).
    injection Hp as <-. auto.
  - rewrite (try_debtap_none _ _ _ _ _ _ E) in H. unfold run in H.
    destruct (manual_build env); [|discriminate H].
    injection H as <- _. discriminate Hused.
Qed.

Lemma used_debtap_means_validated_witness :
  true = true /\ debtap_installed sample_env = true /\
  debtap_run sample_env =
    Ok "/tmp/deb2arch-k3x9/debtap-output/app-1.0-1-x86_64.pkg.tar.zst" /\
  _debtap_output_is_usable (debtap_artifact sample_env)
    (_parse_control_metadata sample_control (input_path sample_deb)) = Ok true.
Proof.
  apply (used_debtap_means_validated sample_env true empty_state
           {| dirs := {["/tmp/deb2arch-k3x9"]};
              trace := [ExtractDebMembers; ReadControlFile; Debtap; ValidateDebtapOutput] |}
           {| metadata := _parse_control_metadata sample_control (input_path sample_deb);
              package_path := "/tmp/deb2arch-k3x9/debtap-output/app-1.0-1-x86_64.pkg.tar.zst";
              temp_dir := "/tmp/deb2arch-k3x9"; used_debtap := true |}).
  - vm_compute. reflexivity.
  - reflexivity.
Defined.

Lemma convert_deb (env : Environment) (prefer_debtap : bool) (st : State)
    (w text : string) (members : string * string) :
  validate_input_file (input env) = Ok "deb" ->
  mkdtemp env = Ok w ->
  deb_members env = Ok members ->
  control_file env = Ok text ->
  convert env prefer_debtap st =
    let metadata := _parse_control_metadata text (input_path (input env)) in
    let st2 := {| dirs := dirs st ∪ {[w]};
                  trace := (trace st ++ [ExtractDebMembers]) ++ [ReadControlFile] |} in
    match try_debtap env metadata prefer_debtap st2 with
    | (Raise e, st3) => (Raise e, snd (cleanup_dir env w st3))
    | (Ok (Some path, used), st3) =>
        (Ok {| metadata := metadata; package_path := path; temp_dir := w;
               used_debtap := used |}, st3)
    | (Ok (None, used), st3) =>
        match manual_build env with
        | Raise e =>
            (Raise e, snd (cleanup_dir env w
                             {| dirs := dirs st3; trace := trace st3 ++ [ManualBuild] |}))
        | Ok path =>
            (Ok {| metadata := metadata; package_path := path; temp_dir := w;
                   used_debtap := used |},
             {| dirs := dirs st3; trace := trace st3 ++ [ManualBuild] |})
        end
    end.
Proof.
  intros Hv Hw Hm Hc. unfold convert, create_temp_dir, convert_body.
  rewrite Hv, Hw. cbn [String.eqb Ascii.eqb Bool.eqb].
  unfold run at 1. rewrite Hm. unfold run at 1. rewrite Hc. cbn [dirs trace].
  cbv zeta.
  destruct (try_debtap env _ prefer_debtap _) as [[[[path|] used]|e] st3];
    [reflexivity| |reflexivity].
  unfold run. destruct (manual_build env); reflexivity.
Qed.

(** X19. When debtap produces an artifact but reading that artifact for
    validation raises a [ConversionError], the handler swallows the error
    and [convert] returns the artifact of debtap all the same, not validated
    and marked as not produced by debtap; the manual build is not run. *)
Theorem validation_error_keeps_the_debtap_artifact
    (env : Environment) (st : State) (w p text msg : string) (members : string * string) :
  validate_input_file (input env) = Ok "deb" ->
  mkdtemp env = Ok w ->
  deb_members env = Ok members ->
  control_file env = Ok text ->
  debtap_installed env = true ->
  debtap_run env = Ok p ->
  debtap_artifact env = Raise (ConversionError msg) ->
  convert env true st =
    (Ok {| metadata := _parse_control_metadata text (input_path (input env));
           package_path := p; temp_dir := w; used_debtap := false |},
     {| dirs := dirs st ∪ {[w]};
        trace := trace st ++ [ExtractDebMembers; ReadControlFile; Debtap;
                              ValidateDebtapOutput] |}).
Proof.
  intros Hv Hw Hm Hc Hi Hr Ha.
  rewrite (convert_deb env true st w text members Hv Hw Hm Hc). cbv zeta.
  unfold try_debtap, run. rewrite Hi, Hr. cbn [andb].
  unfold _debtap_output_is_usable, _parse_pkginfo_dependencies. rewrite Ha.
  cbn [is_ConversionError dirs trace]. rewrite <- !List.app_assoc. reflexivity.
Qed.

Lemma validation_error_keeps_the_debtap_artifact_witness :
  convert unreadable_artifact_env true empty_state =
    (Ok {| metadata := _parse_control_metadata sample_control (input_path sample_deb);
           package_path := "/tmp/deb2arch-k3x9/debtap-output/app-1.0-1-x86_64.pkg.tar.zst";
           temp_dir := "/tmp/deb2arch-k3x9"; used_debtap := false |},
     {| dirs := dirs empty_state ∪ {["/tmp/deb2arch-k3x9"]};
        trace := trace empty_state ++ [ExtractDebMembers; ReadControlFile; Debtap;
                                       ValidateDebtapOutput] |}).
Proof.
  apply (validation_error_keeps_the_debtap_artifact unreadable_artifact_env empty_state
           "/tmp/deb2arch-k3x9"
           "/tmp/deb2arch-k3x9/debtap-output/app-1.0-1-x86_64.pkg.tar.zst"
           sample_control "zstd is required to process .tar.zst archives"
           ("/tmp/deb2arch-k3x9/control.tar.xz", "/tmp/deb2arch-k3x9/data.tar.xz"));
    reflexivity.
Defined.

(** X21. When debtap itself fails with a [ConversionError], or its artifact
    is rejected by the trust validator, [convert] runs the manual build and
    its outcome decides: the package of the manual build, marked as not
    produced by debtap, or the exception of the manual build. *)
Theorem debtap_failure_falls_back_to_manual_build
    (env : Environment) (st : State) (w text : string) (members : string * string) :
  validate_input_file (input env) = Ok "deb" ->
  mkdtemp env = Ok w ->
  deb_members env = Ok members ->
  control_file env = Ok text ->
  debtap_installed env = true ->
  ((exists msg, debtap_run env = Raise (ConversionError msg)) \/
   (exists p, debtap_run env = Ok p /\
              _debtap_output_is_usable (debtap_artifact env)
                (_parse_control_metadata text (input_path (input env))) = Ok false)) ->
  fst (convert env true st) =
    match manual_build env with
    | Ok path =>
        Ok {| metadata := _parse_control_metadata text (input_path (input env));
              package_path := path; temp_dir := w; used_debtap := false |}
    | Raise e => Raise e
    end /\
  ManualBuild ∈ trace (snd (convert env true st)).
Proof.
  intros Hv Hw Hm Hc Hi Hd.
  rewrite (convert_deb env true st w text members Hv Hw Hm Hc). cbv zeta.
  unfold try_debtap, run. rewrite Hi. cbn [andb].
  assert (Hin : forall (l : list step) (x : step), x ∈ l ++ [x]).
  { intros l x. apply elem_of_app. right. apply elem_of_cons. left. reflexivity. }
  destruct Hd as [[msg Hr]|(p & Hr & Hu)]; rewrite Hr; [|rewrite Hu];
    cbn [is_ConversionError];
    (destruct (manual_build env) as [path|e]; cbn [fst snd trace];
     [split; [reflexivity|apply Hin]|]);
    (split; [reflexivity|]);
    unfold cleanup_dir, shutil_rmtree; cbn [dirs trace];
    destruct (bool_decide _); [destruct (rmtree_error env)| |destruct (rmtree_error env)|];
    cbn [snd trace]; apply elem_of_app; left; apply Hin.
Qed.

Lemma debtap_failure_falls_back_to_manual_build_witness :
  fst (convert debtap_failing_env true empty_state) =
    match manual_build debtap_failing_env with
    | Ok path =>
        Ok {| metadata := _parse_control_metadata sample_control
                            (input_path (input debtap_failing_env));
              package_path := path; temp_dir := "/tmp/deb2arch-k3x9";
              used_debtap := false |}
    | Raise e => Raise e
    end /\
  ManualBuild ∈ trace (snd (convert debtap_failing_env true empty_state)).
Proof.
  apply (debtap_failure_falls_back_to_manual_build debtap_failing_env empty_state
           "/tmp/deb2arch-k3x9" sample_control
           ("/tmp/deb2arch-k3x9/control.tar.xz", "/tmp/deb2arch-k3x9/data.tar.xz"));
    try reflexivity.
  left. eexists. reflexivity.
Defined.
